(** * small_crypto: the Collector and the Analyzer, embedded and verified

    [scripts/collect_data.py] fetches daily market series for two coins and
    upserts them into two SQLite tables; [scripts/analyze_data.py] reads the
    tables back, cleans them and computes summary statistics and a weekday
    aggregation for the report.

    Modelling conventions.
    - A calendar date is the number of days since 1970-01-01 (a [Z]); the
      text ['%Y-%m-%d'] the scripts store is a one-to-one rendering of it.
    - A REAL / float64 value is an [option Q]: [None] stands for SQL NULL,
      JSON null and, in the Analyzer, for a value that is not a finite number
      (NaN).  Arithmetic is exact rational arithmetic; rounding is not
      modelled.
    - A table is the list of its rows in rowid order, the order in which
      [SELECT *] hands them to the Analyzer.
    - Exceptions are results ([Raise]); network, clock and log effects are
      recorded as a trace of events.
    - The Analyzer's frames are the frames [pd.read_sql_query] builds: a value
      column with at least one number is float64, a value column of a
      non-empty table that holds only NULL is an object column, on which
      [DataFrame.interpolate] raises [TypeError]. *)

From Stdlib Require Import ZArith QArith Qreduction Lqa List Bool String Lia Permutation Sorted.
Import ListNotations.
Open Scope Z_scope.

(** ** Shared data model *)

Record row := mkRow {
  date : Z;
  price : option Q;
  volume : option Q;
  market_cap : option Q
}.

Definition table := list row.

Record database := mkDb {
  bitcoin : table;
  ethereum : table
}.

Definition get_table (db : database) (name : string) : option table :=
  if String.eqb name "bitcoin" then Some (bitcoin db)
  else if String.eqb name "ethereum" then Some (ethereum db)
  else None.

Definition set_table (db : database) (name : string) (t : table) : database :=
  if String.eqb name "bitcoin" then mkDb t (ethereum db)
  else if String.eqb name "ethereum" then mkDb (bitcoin db) t
  else db.

(** The exception classes the two scripts can raise. *)
Inductive exn :=
| HTTPError (status : Z)
| RequestException
| SqliteError
| ValueError
| TypeError
| IndexError.

Inductive result (A : Type) :=
| Return (a : A)
| Raise (e : exn).
Arguments Return {A} a.
Arguments Raise {A} e.

Definition is_raise {A} (r : result A) : bool :=
  match r with Raise _ => true | Return _ => false end.

(** ** collect_data.py *)

Module Collector.

(** The JSON body of [/coins/{id}/market_chart]: three sequences of
    [[timestamp_ms, value]] pairs. *)
Record market_chart := mkChart {
  prices : list (Z * option Q);
  total_volumes : list (Z * option Q);
  market_caps : list (Z * option Q)
}.

(** What one [requests.get] can do: answer with a status line and a body,
    or raise a [RequestException] that is not an [HTTPError] (connection
    error, timeout).  [response.json()] decodes the body either to a market
    chart, a non-empty dict and so true in [if data:], or to [None], the
    JSON value [null]. *)
Inductive response :=
| Http (status : Z) (body : option market_chart)
| ConnectionFailure.

Inductive level := INFO | WARNING | ERROR.

Inductive message :=
| TablesCreated
| Processing (coin : string)
| FetchedOk (coin : string)
| RateLimitExceeded (coin : string)
| HttpErrorFetching (coin : string) (e : exn)
| ErrorFetching (coin : string) (e : exn)
| StoredOk (coin : string)
| ErrorStoring (coin : string) (e : exn)
| NoDataReceived (coin : string)
| CollectionCompleted
| ErrorInMain (e : exn)
| ConnectionClosed.

Inductive event :=
| Get (coin : string) (days : Z)
| Sleep (seconds : Z)
| Log (l : level) (m : message).

(** The world a run of the job meets: the answer of the remote API to the
    n-th attempt for a coin; whether SQLite fails on a table, at the first
    use of the connection in [store_data] and so before any payload entry is
    looked at; and the local time zone, as the offset of local time from UTC
    in seconds that is in force at an instant given in milliseconds since
    the epoch (it changes with daylight saving time). *)
Record env := mkEnv {
  api : string -> nat -> response;
  sqlite_fails : string -> bool;
  utc_offset : Z -> Z
}.

Definition max_retries : nat := 3.
Definition retry_delay : Z := 5.

(** [response.raise_for_status()] raises for 4xx and 5xx. *)
Definition raise_for_status (status : Z) : bool :=
  (400 <=? status) && (status <? 600).

(** The body of [for attempt in range(max_retries)], one attempt per
    element of [attempts]; falling out of the loop is [return None]. *)
Fixpoint fetch_attempts (answer : nat -> response) (coin : string) (days : Z)
    (attempts : list nat) : result (option market_chart) * list event :=
  match attempts with
  | [] => (Return None, [])
  | attempt :: rest =>
      match answer attempt with
      | Http status body =>
          if raise_for_status status then
            if status =? 429 then
              let '(r, tr) := fetch_attempts answer coin days rest in
              (r, Get coin days :: Log WARNING (RateLimitExceeded coin)
                    :: Sleep retry_delay :: tr)
            else
              (Raise (HTTPError status),
               [Get coin days; Log ERROR (HttpErrorFetching coin (HTTPError status))])
          else
            (Return body, [Get coin days; Log INFO (FetchedOk coin)])
      | ConnectionFailure =>
          if Nat.eqb attempt (max_retries - 1) then
            (Raise RequestException,
             [Get coin days; Log ERROR (ErrorFetching coin RequestException)])
          else
            let '(r, tr) := fetch_attempts answer coin days rest in
            (r, Get coin days :: Log ERROR (ErrorFetching coin RequestException)
                  :: Sleep retry_delay :: tr)
      end
  end.

Definition fetch_crypto_data (w : env) (coin_id : string) (days : Z)
  : result (option market_chart) * list event :=
  fetch_attempts (api w coin_id) coin_id days (seq 0 max_retries).

(** [datetime.fromtimestamp(timestamp_ms / 1000).strftime('%Y-%m-%d')]: the
    local calendar day of the instant, under the offset in force at that
    instant. *)
Definition date_of_timestamp (offset : Z -> Z) (timestamp_ms : Z) : Z :=
  (timestamp_ms + offset timestamp_ms * 1000) / 86400000.

(** [datetime] holds the years 1 to 9999: the days 0001-01-01 and
    9999-12-31, counted from 1970-01-01. *)
Definition min_day : Z := -719162.
Definition max_day : Z := 2932896.

Definition in_years (d : Z) : bool := (min_day <=? d) && (d <=? max_day).

(** Whether [datetime.fromtimestamp] returns for the instant: it converts
    the instant and, to detect a repeated local time, the instant 24 hours
    before it, and both must fall in the years [datetime] holds.  Otherwise
    it raises [ValueError] (far outside the range [OverflowError] or
    [OSError], which [ValueError] stands for here: none of them is a
    [sqlite3.Error]). *)
Definition representable (offset : Z -> Z) (timestamp_ms : Z) : bool :=
  in_years (date_of_timestamp offset timestamp_ms)
  && in_years (date_of_timestamp offset (timestamp_ms - 86400000)).

(** [INSERT OR REPLACE]: a row with the same primary key is deleted, the new
    row gets a fresh rowid. *)
Definition insert_or_replace (t : table) (r : row) : table :=
  filter (fun x => negb (date x =? date r)) t ++ [r].

Fixpoint zip3 {A B C} (la : list A) (lb : list B) (lc : list C) : list (A * B * C) :=
  match la, lb, lc with
  | a :: la', b :: lb', c :: lc' => (a, b, c) :: zip3 la' lb' lc'
  | _, _, _ => []
  end.

(** The rows the loop over [zip(prices, total_volumes, market_caps)] writes
    when every date conversion returns. *)
Definition rows_of_chart (offset : Z -> Z) (data : market_chart) : list row :=
  map (fun '(p, v, m) => mkRow (date_of_timestamp offset (fst p)) (snd p) (snd v) (snd m))
      (zip3 (prices data) (total_volumes data) (market_caps data)).

(** The timestamps the loop converts, in its order. *)
Definition chart_timestamps (data : market_chart) : list Z :=
  map (fun '(p, _, _) => fst p)
      (zip3 (prices data) (total_volumes data) (market_caps data)).

Definition store_rows (t : table) (rows : list row) : table :=
  fold_left insert_or_replace rows t.

(** A failing statement leaves the transaction uncommitted: the database is
    unchanged.  So does a date conversion that raises inside the loop: the
    rows written before it are never committed, and since its exception is
    not a [sqlite3.Error] the [except] clause of [store_data] does not catch
    it and nothing is logged here. *)
Definition store_data (w : env) (db : database) (coin_id : string) (data : market_chart)
  : result database * list event :=
  match get_table db coin_id with
  | Some t =>
      if sqlite_fails w coin_id then
        (Raise SqliteError, [Log ERROR (ErrorStoring coin_id SqliteError)])
      else if forallb (representable (utc_offset w)) (chart_timestamps data) then
        (Return (set_table db coin_id (store_rows t (rows_of_chart (utc_offset w) data))),
         [Log INFO (StoredOk coin_id)])
      else
        (Raise ValueError, [])
  | None => (Raise SqliteError, [Log ERROR (ErrorStoring coin_id SqliteError)])
  end.

Definition coins : list string := ["bitcoin"; "ethereum"]%string.
Definition days : Z := 30.

(** [for coin in coins: ...] inside the [try] of [main]: an exception leaves
    the loop. *)
Fixpoint process_coins (w : env) (cs : list string) (db : database)
  : result unit * database * list event :=
  match cs with
  | [] => (Return tt, db, [])
  | coin :: rest =>
      match fetch_crypto_data w coin days with
      | (Raise e, tr) => (Raise e, db, Log INFO (Processing coin) :: tr)
      | (Return None, tr) =>
          let '(r, db', tr') := process_coins w rest db in
          (r, db', Log INFO (Processing coin) :: tr
                     ++ Log ERROR (NoDataReceived coin) :: Sleep 1 :: tr')
      | (Return (Some data), tr) =>
          match store_data w db coin data with
          | (Raise e, ts) => (Raise e, db, Log INFO (Processing coin) :: tr ++ ts)
          | (Return db1, ts) =>
              let '(r, db', tr') := process_coins w rest db1 in
              (r, db', Log INFO (Processing coin) :: tr ++ ts ++ Sleep 1 :: tr')
          end
      end
  end.

Definition main (w : env) (db : database) : result unit * database * list event :=
  let '(r, db', tr) := process_coins w coins db in
  match r with
  | Return _ =>
      (Return tt, db',
       Log INFO TablesCreated :: tr
         ++ [Log INFO CollectionCompleted; Log INFO ConnectionClosed])
  | Raise e =>
      (Raise e, db',
       Log INFO TablesCreated :: tr
         ++ [Log ERROR (ErrorInMain e); Log INFO ConnectionClosed])
  end.

(** What a failing bitcoin step is: its fetch raises, or its fetch returns
    data and its store raises. *)
Definition bitcoin_step_raises (w : env) (db : database) (e : exn) : Prop :=
  fst (fetch_crypto_data w "bitcoin" days) = Raise e
  \/ exists data,
       fst (fetch_crypto_data w "bitcoin" days) = Return (Some data)
       /\ fst (store_data w db "bitcoin" data) = Raise e.

(** Observations on a trace. *)
Definition requests_for (coin : string) (tr : list event) : nat :=
  List.length (filter (fun e => match e with Get c _ => String.eqb c coin | _ => false end) tr).

Fixpoint sleeps (tr : list event) : list Z :=
  match tr with
  | [] => []
  | Sleep s :: tr' => s :: sleeps tr'
  | _ :: tr' => sleeps tr'
  end.

Definition rows_on (d : Z) (t : table) : list row :=
  filter (fun r => date r =? d) t.

Definition mem_date (d : Z) (rows : list row) : bool :=
  existsb (fun r => date r =? d) rows.

(** An answer after which the loop goes on to its next attempt, when one
    is left: a 429, or a failure below HTTP. *)
Definition retryable (r : response) : bool :=
  match r with
  | Http status _ => status =? 429
  | ConnectionFailure => true
  end.

(** An answer that passes [raise_for_status] and whose body is JSON
    [null]. *)
Definition null_answer (r : response) : bool :=
  match r with
  | Http status None => negb (raise_for_status status)
  | _ => false
  end.

End Collector.

(** ** analyze_data.py *)

Module Analyzer.

Definition float := option Q.

Definition Qltb (x y : Q) : bool := negb (Qle_bool y x).

(** [SELECT * FROM bitcoin], [SELECT * FROM ethereum]. *)
Definition load_data (db : database) : list row * list row :=
  (bitcoin db, ethereum db).

Definition is_null (x : float) : bool :=
  match x with None => true | Some _ => false end.

(** [df.isnull().any().any()]; the date, written by [strftime], is never
    null. *)
Definition isnull_any (df : list row) : bool :=
  existsb (fun r => is_null (price r) || is_null (volume r) || is_null (market_cap r)) df.

Fixpoint enumerate {A} (i : nat) (l : list A) : list (nat * A) :=
  match l with
  | [] => []
  | x :: l' => (i, x) :: enumerate (S i) l'
  end.

(** The first valid entry of [col] and its position, positions counted
    from [i]. *)
Fixpoint first_valid (i : nat) (col : list float) : option (nat * Q) :=
  match col with
  | [] => None
  | Some y :: _ => Some (i, y)
  | None :: rest => first_valid (S i) rest
  end.

(** The last valid entry of [col] and its position. *)
Fixpoint last_valid (i : nat) (col : list float) : option (nat * Q) :=
  match col with
  | [] => None
  | y :: rest =>
      match last_valid (S i) rest with
      | Some r => Some r
      | None => match y with Some v => Some (i, v) | None => None end
      end
  end.

Definition Qpos_index (i : nat) : Q := inject_Z (Z.of_nat i).

(** [np.interp(x, xp, fp)] at a missing position [x], where [xp] are the
    positions of the valid entries of the column and [fp] their values:
    [slope * (x - xp[j]) + fp[j]] between two valid neighbours, the edge
    value outside them ([limit_direction='both']).  The result is kept in
    lowest terms.  This is the filling of a float64 column, which has a
    valid entry when it comes from [read_sql_query]; on a column without one
    there is nothing to interpolate from and the entry stays missing, but
    such a column of a stored table is an object column, on which
    [df.interpolate] raises instead: see [clean_data_raises]. *)
Definition np_interp (col : list float) (x : nat) : float :=
  match last_valid 0 (firstn x col), first_valid (S x) (skipn (S x) col) with
  | Some (xa, ya), Some (xb, yb) =>
      let slope := ((yb - ya) / (Qpos_index xb - Qpos_index xa))%Q in
      Some (Qred (slope * (Qpos_index x - Qpos_index xa) + ya))
  | Some (_, ya), None => Some ya
  | None, Some (_, yb) => Some yb
  | None, None => None
  end.

Definition fill (col : list float) (i : nat) (y : float) : float :=
  match y with
  | Some v => Some v
  | None => np_interp col i
  end.

Definition interpolate_col (col : list float) : list float :=
  map (fun '(i, y) => fill col i y) (enumerate 0 col).

(** [df.interpolate(method='linear', limit_direction='both')] where it
    returns: every float column is filled on its own, over row positions
    (the index values play no part); the date column is not a float column
    and stays. *)
Definition interpolate (df : list row) : list row :=
  map (fun '(i, r) =>
         mkRow (date r)
               (fill (map price df) i (price r))
               (fill (map volume df) i (volume r))
               (fill (map market_cap df) i (market_cap r)))
      (enumerate 0 df).

(** [x <= 0] and [x > 0] on a float: both are false on NaN. *)
Definition le0 (x : float) : bool :=
  match x with Some q => Qle_bool q 0 | None => false end.

Definition gt0 (x : float) : bool :=
  match x with Some q => Qltb 0 q | None => false end.

Definition has_anomaly (df : list row) : bool :=
  existsb (fun r => le0 (price r)) df || existsb (fun r => le0 (volume r)) df.

Definition keep_positive (df : list row) : list row :=
  filter (fun r => gt0 (price r) && gt0 (volume r)) df.

(** [df.sort_values('date')], as a stable insertion sort on the date.  On
    distinct dates, which the primary key gives, every sort returns the
    same frame. *)
Fixpoint insert_by_date (r : row) (l : list row) : list row :=
  match l with
  | [] => [r]
  | x :: l' => if date r <=? date x then r :: l else x :: insert_by_date r l'
  end.

Fixpoint sort_values (df : list row) : list row :=
  match df with
  | [] => []
  | r :: l => insert_by_date r (sort_values l)
  end.

(** The frame [clean_data] returns, when it returns. *)
Definition clean_data (df : list row) : list row :=
  let df1 := if isnull_any df then interpolate df else df in
  let df2 := if has_anomaly df1 then keep_positive df1 else df1 in
  sort_values df2.

Definition all_null (col : list float) : bool := forallb is_null col.

(** Whether [clean_data] raises: [df.interpolate] is called, on a frame with
    a missing value, and one of the value columns holds nothing but NULL.
    [read_sql_query] gives such a column the object dtype, and
    [DataFrame.interpolate] raises [TypeError] on an object column. *)
Definition clean_data_raises (df : list row) : bool :=
  isnull_any df
  && (all_null (map price df) || all_null (map volume df) || all_null (map market_cap df)).

(** The call [clean_data(df)]: its [except] clause logs and re-raises. *)
Definition clean_frame (df : list row) : result (list row) :=
  if clean_data_raises df then Raise TypeError else Return (clean_data df).

(** A frame whose price and volume columns are float64 columns: it is
    empty, or each of the two columns has a valid entry.  The frames
    [clean_data] returns are of this kind. *)
Definition float_columns (df : list row) : bool :=
  match df with
  | [] => true
  | _ => negb (all_null (map price df)) && negb (all_null (map volume df))
  end.

(** *** Statistics *)

Definition bind {A B} (r : result A) (k : A -> result B) : result B :=
  match r with
  | Return a => k a
  | Raise e => Raise e
  end.

Notation "x <- r ;; k" := (bind r (fun x => k))
  (at level 61, r at next level, right associativity).

(** The non-NaN entries of a column ([skipna=True]). *)
Definition valid (col : list float) : list Q :=
  flat_map (fun y => match y with Some v => [v] | None => [] end) col.

Definition Qsum (l : list Q) : Q := fold_right Qplus 0%Q l.

Definition Qcount (l : list Q) : Q := inject_Z (Z.of_nat (List.length l)).

(** [Series.mean()], also SQL [AVG]: the mean of the valid entries, NaN
    (NULL) when there is none. *)
Definition mean (col : list float) : float :=
  match valid col with
  | [] => None
  | vs => Some (Qsum vs / Qcount vs)%Q
  end.

Definition fsub (a b : float) : float :=
  match a, b with Some x, Some y => Some (x - y)%Q | _, _ => None end.

Definition fmul (a b : float) : float :=
  match a, b with Some x, Some y => Some (x * y)%Q | _, _ => None end.

(** A division by zero gives an infinity or NaN, not an exception. *)
Definition fdiv (a b : float) : float :=
  match a, b with
  | Some x, Some y => if Qeq_bool y 0 then None else Some (x / y)%Q
  | _, _ => None
  end.

(** [Series.iloc[i]]: a negative position counts from the end; a position
    outside the series raises [IndexError]. *)
Definition iloc (col : list float) (i : Z) : result float :=
  let n := Z.of_nat (List.length col) in
  let k := if i <? 0 then n + i else i in
  if (0 <=? k) && (k <? n) then
    match nth_error col (Z.to_nat k) with
    | Some y => Return y
    | None => Raise IndexError
    end
  else Raise IndexError.

Record summary := mkSummary {
  mean_price : float;
  volatility : float;
  price_change_pct : float;
  avg_volume : float
}.

Record weekday_row := mkWeekday {
  weekday_num : Z;
  weekday : string;
  avg_price : float;
  wd_avg_volume : float
}.

Record analysis := mkAnalysis {
  Bitcoin : summary;
  Ethereum : summary;
  btc_weekday_trends : list weekday_row
}.

(** SQLite's [strftime('%w', date)]: 0 is Sunday; day 0 (1970-01-01) was a
    Thursday. *)
Definition strftime_w (d : Z) : Z := (d + 4) mod 7.

Definition weekday_label (n : Z) : string :=
  if n =? 0 then "Sunday"
  else if n =? 1 then "Monday"
  else if n =? 2 then "Tuesday"
  else if n =? 3 then "Wednesday"
  else if n =? 4 then "Thursday"
  else if n =? 5 then "Friday"
  else if n =? 6 then "Saturday"
  else "".

(** [SELECT ... AVG(price), AVG(volume) FROM bitcoin GROUP BY weekday_num
    ORDER BY weekday_num]: one row per weekday that has rows in the table. *)
Definition weekday_group (t : table) (n : Z) : list row :=
  filter (fun r => strftime_w (date r) =? n) t.

Definition weekday_agg (t : table) : list weekday_row :=
  flat_map (fun n =>
              match weekday_group t n with
              | [] => []
              | g => [mkWeekday n (weekday_label n)
                                (mean (map price g)) (mean (map volume g))]
              end)
           [0; 1; 2; 3; 4; 5; 6].

Section Statistics.

(** The square root of float64, which exact rationals do not have. *)
Variable sqrt : Q -> Q.

(** [Series.std()]: sample standard deviation ([ddof=1]) of the valid
    entries, NaN below two of them. *)
Definition std (col : list float) : float :=
  let vs := valid col in
  match mean col with
  | Some m =>
      if (List.length vs <? 2)%nat then None
      else Some (sqrt (Qsum (map (fun x => (x - m) * (x - m)) vs) / (Qcount vs - 1)))%Q
  | None => None
  end.

(** The dict of one coin in [analysis]; its entries are evaluated in the
    order written.  The columns are float64 columns, as in every frame
    [clean_data] returns ([float_columns]); the arithmetic of Python on an
    object column of [None], which raises [TypeError], is not reached from
    [main] and is not modelled. *)
Definition summarize (df : list row) : result summary :=
  let P := map price df in
  let mean_price := mean P in
  let volatility := fmul (fdiv (std P) (mean P)) (Some 100%Q) in
  last <- iloc P (-1) ;;
  first <- iloc P 0 ;;
  first' <- iloc P 0 ;;
  let price_change_pct := fmul (fdiv (fsub last first) first') (Some 100%Q) in
  Return (mkSummary mean_price volatility price_change_pct (mean (map volume df))).

(** [analysis['correlation']] is left out of the record: [Series.corr]
    gives NaN where it cannot compute and never raises, so it does not
    change what [analyze_data] returns in the other entries.  The weekday
    aggregation is a query on the connection, [db]. *)
Definition analyze_data (db : database) (btc_df eth_df : list row) : result analysis :=
  b <- summarize btc_df ;;
  e <- summarize eth_df ;;
  Return (mkAnalysis b e (weekday_agg (bitcoin db))).

Definition main (db : database) : result analysis :=
  let '(btc_df, eth_df) := load_data db in
  btc_df' <- clean_frame btc_df ;;
  eth_df' <- clean_frame eth_df ;;
  analyze_data db btc_df' eth_df'.

End Statistics.

(** *** The report's weekday lookups *)

(** [argmax] / [argmin]: one scan from the left, the candidate changes only
    on a strictly better value, NaN is skipped. *)
Fixpoint arg_scan (better : Q -> Q -> bool) (best : nat * Q) (i : nat) (col : list float)
  : nat * Q :=
  match col with
  | [] => best
  | Some v :: rest =>
      if better v (snd best) then arg_scan better (i, v) (S i) rest
      else arg_scan better best (S i) rest
  | None :: rest => arg_scan better best (S i) rest
  end.

Definition arg_best (better : Q -> Q -> bool) (col : list float) : option nat :=
  match first_valid 0 col with
  | Some b => Some (fst (arg_scan better b 0 col))
  | None => None
  end.

Definition idxmax (col : list float) : option nat := arg_best (fun v b => Qltb b v) col.
Definition idxmin (col : list float) : option nat := arg_best (fun v b => Qltb v b) col.

(** [trends.iloc[trends['avg_volume'].idxmax()]['weekday']] and its [idxmin]
    twin; [None] when the column has no valid entry and the lookup raises. *)
Definition highest_volume_weekday (trends : list weekday_row) : option string :=
  match idxmax (map wd_avg_volume trends) with
  | Some i => option_map weekday (nth_error trends i)
  | None => None
  end.

Definition lowest_volume_weekday (trends : list weekday_row) : option string :=
  match idxmin (map wd_avg_volume trends) with
  | Some i => option_map weekday (nth_error trends i)
  | None => None
  end.

(** Position [i] holds the maximum (minimum) of the valid entries of [col]
    and every valid entry before it is strictly smaller (greater). *)
Definition first_max (col : list float) (i : nat) : Prop :=
  exists v,
    nth_error col i = Some (Some v)
    /\ (forall j w, nth_error col j = Some (Some w) -> (w <= v)%Q)
    /\ (forall j w, (j < i)%nat -> nth_error col j = Some (Some w) -> (w < v)%Q).

Definition first_min (col : list float) (i : nat) : Prop :=
  exists v,
    nth_error col i = Some (Some v)
    /\ (forall j w, nth_error col j = Some (Some w) -> (v <= w)%Q)
    /\ (forall j w, (j < i)%nat -> nth_error col j = Some (Some w) -> (v < w)%Q).

Definition week_labels : list string :=
  ["Sunday"; "Monday"; "Tuesday"; "Wednesday"; "Thursday"; "Friday"; "Saturday"]%string.

(** Whether some row of the table falls on weekday [n]. *)
Definition on_weekday (t : table) (n : Z) : bool :=
  existsb (fun r => strftime_w (date r) =? n) t.

(** A column without gaps among values: all of its entries are valid, or
    none is. *)
Definition uniform (col : list float) : Prop :=
  Forall (fun y => is_null y = false) col \/ Forall (fun y => y = None) col.

(** [Series.max()] and [Series.min()]: a reduction over the valid entries,
    NaN when there is none. *)
Definition series_reduce (pick : Q -> Q -> Q) (col : list float) : float :=
  match valid col with
  | [] => None
  | v :: vs => Some (fold_left pick vs v)
  end.

Definition series_max (col : list float) : float :=
  series_reduce (fun m v => if Qltb m v then v else m) col.

Definition series_min (col : list float) : float :=
  series_reduce (fun m v => if Qltb v m then v else m) col.

(** The weekday arguments of the template in [generate_report]: the label
    of the highest-volume weekday, that volume, the same for the lowest,
    and the label looked up once more for the recommendation.  [None]
    when a lookup raises. *)
Record weekday_args := mkWeekdayArgs {
  highest_day : string;
  highest_volume : float;
  lowest_day : string;
  lowest_volume : float;
  recommended_day : string
}.

Definition generate_report_args (a : analysis) : option weekday_args :=
  let trends := btc_weekday_trends a in
  match highest_volume_weekday trends with
  | Some hi =>
      match lowest_volume_weekday trends with
      | Some lo =>
          match highest_volume_weekday trends with
          | Some hi' =>
              Some (mkWeekdayArgs hi (series_max (map wd_avg_volume trends))
                                  lo (series_min (map wd_avg_volume trends)) hi')
          | None => None
          end
      | None => None
      end
  | None => None
  end.

(** [Series.dt.day_name()]: pandas counts the day of the week from Monday;
    day 0 (1970-01-01) was a Thursday. *)
Definition dayofweek (d : Z) : Z := (d + 3) mod 7.

Definition day_name (d : Z) : string :=
  nth (Z.to_nat (dayofweek d))
      ["Monday"; "Tuesday"; "Wednesday"; "Thursday"; "Friday"; "Saturday"; "Sunday"]%string
      ""%string.

(** [pd.merge(btc_df[['date', 'price']], eth_df[['date', 'price']],
    on='date')]: the inner join on the date, in the order of the left
    frame. *)
Definition merge_on_date (left right : list row) : list (Z * float * float) :=
  flat_map (fun x =>
              map (fun y => (date x, price x, price y))
                  (filter (fun y => date y =? date x) right))
           left.

End Analyzer.

(** ** Sample worlds and tables *)

Module Samples.
Import Collector.

Definition chart (l : list (Z * Q)) : market_chart :=
  let col := map (fun '(ts, v) => (ts, Some v)) l in
  mkChart col col col.

(** Two daily points, 1970-01-01 and 1970-01-02 at midnight UTC. *)
Definition two_days : market_chart := chart [(0, 100%Q); (86400000, 110%Q)].

(** The same two days, re-fetched with another value for the second. *)
Definition two_days_again : market_chart := chart [(0, 100%Q); (86400000, 125%Q)].

Definition empty_db : database := mkDb [] [].

Definition day (d : Z) (v : Q) : row := mkRow d (Some v) (Some v) (Some v).

(** The bitcoin table after [two_days], and after [two_days_again] on top. *)
Definition stored_once : database := mkDb [day 0 100%Q; day 1 110%Q] [].
Definition stored_twice : database := mkDb [day 0 100%Q; day 1 125%Q] [].

(** Every request is answered 429. *)
Definition rate_limited : env :=
  mkEnv (fun _ _ => Http 429 None) (fun _ => false) (fun _ => 0).

(** Every request fails below HTTP. *)
Definition unreachable : env :=
  mkEnv (fun _ _ => ConnectionFailure) (fun _ => false) (fun _ => 0).

(** Every request is answered 500. *)
Definition server_error : env :=
  mkEnv (fun _ _ => Http 500 None) (fun _ => false) (fun _ => 0).

(** A healthy API and a healthy store. *)
Definition healthy : env :=
  mkEnv (fun _ _ => Http 200 (Some two_days)) (fun _ => false) (fun _ => 0).

(** bitcoin is answered 500, ethereum is served. *)
Definition bitcoin_broken : env :=
  mkEnv (fun coin _ => if String.eqb coin "bitcoin" then Http 500 None
                       else Http 200 (Some two_days))
        (fun _ => false) (fun _ => 0).

(** bitcoin is rate limited throughout, ethereum is served. *)
Definition bitcoin_rate_limited : env :=
  mkEnv (fun coin _ => if String.eqb coin "bitcoin" then Http 429 None
                       else Http 200 (Some two_days))
        (fun _ => false) (fun _ => 0).

(** The first request fails below HTTP, the second is served. *)
Definition slow_start : env :=
  mkEnv (fun _ n => if Nat.eqb n 0 then ConnectionFailure else Http 200 (Some two_days))
        (fun _ => false) (fun _ => 0).

(** A payload whose only entry is the first instant of the year 10000. *)
Definition far_future : market_chart := chart [(253402300800000, 100%Q)].

(** A healthy store behind an API that serves [far_future]. *)
Definition far_future_api : env :=
  mkEnv (fun _ _ => Http 200 (Some far_future)) (fun _ => false) (fun _ => 0).

(** Local time in New York around the end of daylight saving time in 2024:
    four hours behind UTC from 2024-03-10 07:00 UTC, five hours behind from
    2024-11-03 06:00 UTC on and before. *)
Definition new_york : Z -> Z :=
  fun ts => if (1710054000000 <=? ts) && (ts <? 1730613600000) then -14400 else -18000.

(** Frames for the cleaning stage. *)
Definition obs (d : Z) (p v : option Q) : row := mkRow d p v (Some 1%Q).

(** Days 1, 2, 3 with the price of day 2 missing, in date order and with
    the first two rows exchanged. *)
Definition gap_in_order : list row :=
  [obs 1 (Some 10%Q) (Some 5%Q); obs 2 None (Some 5%Q); obs 3 (Some 30%Q) (Some 5%Q)].

Definition gap_first : list row :=
  [obs 2 None (Some 5%Q); obs 1 (Some 10%Q) (Some 5%Q); obs 3 (Some 30%Q) (Some 5%Q)].

(** Complete rows, one of them with a zero volume, in two orders. *)
Definition complete_a : list row :=
  [obs 3 (Some 30%Q) (Some 5%Q); obs 1 (Some 10%Q) (Some 0%Q); obs 2 (Some 20%Q) (Some 7%Q)].

Definition complete_b : list row :=
  [obs 1 (Some 10%Q) (Some 0%Q); obs 3 (Some 30%Q) (Some 5%Q); obs 2 (Some 20%Q) (Some 7%Q)].

(** The same three observations once more, the row of day 2 last: rowid
    order is the order of the last write of each date, not the order of the
    dates. *)
Definition gap_last : list row :=
  [obs 1 (Some 10%Q) (Some 5%Q); obs 3 (Some 30%Q) (Some 5%Q); obs 2 None (Some 5%Q)].

(** A frame with a missing price, a zero price and a negative volume. *)
Definition dirty : list row :=
  [obs 4 (Some 40%Q) (Some 5%Q); obs 1 (Some 0%Q) (Some 5%Q); obs 2 None (Some 6%Q);
   obs 3 (Some 30%Q) (Some (-2)%Q); obs 5 (Some 50%Q) (Some 9%Q)].

(** Seven consecutive days from a Tuesday (day 5) on; the volumes of
    Wednesday and Sunday tie for the highest, those of Thursday and Friday
    for the lowest. *)
Definition one_week : table :=
  [obs 5 (Some 50%Q) (Some 3%Q); obs 6 (Some 51%Q) (Some 9%Q);
   obs 7 (Some 52%Q) (Some 2%Q); obs 8 (Some 53%Q) (Some 2%Q);
   obs 9 (Some 54%Q) (Some 5%Q); obs 10 (Some 55%Q) (Some 9%Q);
   obs 11 (Some 56%Q) (Some 4%Q)].

(** A table whose two rows are seven days apart, both on a Thursday. *)
Definition two_thursdays : table :=
  [obs 0 (Some 50%Q) (Some 3%Q); obs 7 (Some 52%Q) (Some 9%Q)].

(** A square root for the evaluated examples: rounded down to six
    decimals. *)
Definition sqrt_6dp (q : Q) : Q :=
  Z.sqrt (Qnum q * 1000000000000 / Zpos (Qden q)) # 1000000.

(** A store whose bitcoin rows all have a zero price or a zero volume. *)
Definition worthless_db : database :=
  mkDb [obs 1 (Some 0%Q) (Some 5%Q); obs 2 (Some 10%Q) (Some 0%Q)]
       [obs 1 (Some 3%Q) (Some 5%Q); obs 2 (Some 4%Q) (Some 6%Q)].

(** A store whose bitcoin table holds two Thursdays (days 0 and 7), the
    second with a zero price, and a Friday without a price. *)
Definition mixed_db : database :=
  mkDb [obs 0 (Some 10%Q) (Some 4%Q); obs 1 None (Some 6%Q); obs 7 (Some 0%Q) (Some 8%Q)]
       [obs 0 (Some 3%Q) (Some 5%Q); obs 1 (Some 4%Q) (Some 6%Q)].

Definition mixed_analysis : Analyzer.analysis :=
  Eval vm_compute in
    match Analyzer.main sqrt_6dp mixed_db with
    | Return a => a
    | Raise _ =>
        let nan := Analyzer.mkSummary None None None None in
        Analyzer.mkAnalysis nan nan []
    end.

(** A store holding [one_week] in both tables, and its analysis. *)
Definition week_db : database := mkDb one_week one_week.

Definition week_analysis : Analyzer.analysis :=
  Eval vm_compute in
    match Analyzer.main sqrt_6dp week_db with
    | Return a => a
    | Raise _ =>
        let nan := Analyzer.mkSummary None None None None in
        Analyzer.mkAnalysis nan nan []
    end.

(** The analysis of a store that holds [complete_a], rows out of date
    order, in both tables. *)
Definition reordered_analysis : Analyzer.analysis :=
  Eval vm_compute in
    match Analyzer.main sqrt_6dp (mkDb complete_a complete_a) with
    | Return a => a
    | Raise _ =>
        let nan := Analyzer.mkSummary None None None None in
        Analyzer.mkAnalysis nan nan []
    end.

(** A bitcoin frame of a single day, analysed beside the cleaned ethereum
    table of [mixed_db]. *)
Definition single_day : list row := [obs 3 (Some 8%Q) (Some 2%Q)].

Definition single_day_analysis : Analyzer.analysis :=
  Eval vm_compute in
    match Analyzer.analyze_data sqrt_6dp mixed_db single_day
            (Analyzer.clean_data (ethereum mixed_db)) with
    | Return a => a
    | Raise _ =>
        let nan := Analyzer.mkSummary None None None None in
        Analyzer.mkAnalysis nan nan []
    end.

End Samples.

(** * Properties of the Collector *)

Section CollectorFacts.
Import Collector.

(** ** Fetching *)

Lemma requests_for_cons_get coin days tr :
  requests_for coin (Get coin days :: tr) = S (requests_for coin tr).
Proof.
  unfold requests_for. simpl. now rewrite String.eqb_refl.
Qed.

Lemma requests_for_cons_log coin l m tr :
  requests_for coin (Log l m :: tr) = requests_for coin tr.
Proof. reflexivity. Qed.

Lemma requests_for_cons_sleep coin s tr :
  requests_for coin (Sleep s :: tr) = requests_for coin tr.
Proof. reflexivity. Qed.

Lemma requests_for_app coin tr1 tr2 :
  requests_for coin (tr1 ++ tr2) = (requests_for coin tr1 + requests_for coin tr2)%nat.
Proof.
  unfold requests_for. now rewrite filter_app, length_app.
Qed.

Lemma requests_for_nil coin : requests_for coin [] = 0%nat.
Proof. reflexivity. Qed.

Ltac count_requests :=
  cbn [app];
  repeat first [ rewrite requests_for_cons_get
               | rewrite requests_for_cons_log
               | rewrite requests_for_cons_sleep
               | rewrite requests_for_app
               | rewrite requests_for_nil ].

Ltac find_event :=
  lazymatch goal with
  | |- In _ (_ :: _) => first [ left; reflexivity | right; find_event ]
  | |- In _ (_ ++ _) =>
      apply in_or_app; first [ left; find_event | right; find_event ]
  end.

(** A fetch only ever asks for its own coin. *)
Lemma fetch_attempts_requests_other answer coin days other attempts :
  String.eqb coin other = false ->
  requests_for other (snd (fetch_attempts answer coin days attempts)) = 0%nat.
Proof.
  intros Hne.
  assert (Hget : forall tr, requests_for other (Get coin days :: tr) = requests_for other tr).
  { intros tr. unfold requests_for. cbn [filter]. now rewrite Hne. }
  induction attempts as [|a rest IH]; cbn [fetch_attempts]; [reflexivity|].
  destruct (answer a) as [status body|].
  - destruct (raise_for_status status); [destruct (status =? 429)|].
    + destruct (fetch_attempts answer coin days rest) as [r tr]. cbn [snd] in *.
      now rewrite Hget.
    + cbn [snd]. now rewrite Hget.
    + cbn [snd]. now rewrite Hget.
  - destruct (Nat.eqb a (max_retries - 1)).
    + cbn [snd]. now rewrite Hget.
    + destruct (fetch_attempts answer coin days rest) as [r tr]. cbn [snd] in *.
      now rewrite Hget.
Qed.

(** An HTTP error status other than 429 ends the fetch at the attempt
    that meets it. *)
Lemma fetch_http_error_not_retried w coin days status body :
  api w coin 0%nat = Http status body ->
  raise_for_status status = true ->
  status <> 429 ->
  fetch_crypto_data w coin days =
    (Raise (HTTPError status),
     [Get coin days; Log ERROR (HttpErrorFetching coin (HTTPError status))]).
Proof.
  intros H0 Hs Hne. unfold fetch_crypto_data. simpl. rewrite H0, Hs.
  destruct (Z.eqb_spec status 429); [contradiction|reflexivity].
Qed.

(** C1, as stated, fails: when every attempt is answered 429 the fetch
    does not raise; it returns [None]. *)
Lemma fetch_rate_limited_does_not_raise :
  ~ exists e,
      fst (fetch_crypto_data Samples.rate_limited "bitcoin" 30) = Raise e.
Proof.
  intros [e He]. vm_compute in He. discriminate He.
Qed.

(** C1, amended: when the API answers 429 on every attempt, the fetch makes
    exactly [max_retries] = 3 requests, sleeps [retry_delay] = 5 after each
    of them and then returns [None]; it raises nothing. *)
Theorem fetch_rate_limited_gives_up (w : env) (coin : string) (days : Z)
  (H429 : forall n, (n < max_retries)%nat -> exists body, api w coin n = Http 429 body) :
  fst (fetch_crypto_data w coin days) = Return None
  /\ requests_for coin (snd (fetch_crypto_data w coin days)) = 3%nat
  /\ sleeps (snd (fetch_crypto_data w coin days)) = [5; 5; 5].
Proof.
  unfold fetch_crypto_data, max_retries in *.
  destruct (H429 0%nat) as [b0 E0]; [lia|].
  destruct (H429 1%nat) as [b1 E1]; [lia|].
  destruct (H429 2%nat) as [b2 E2]; [lia|].
  simpl. rewrite E0, E1, E2. simpl.
  count_requests.
  repeat split; reflexivity.
Qed.

Lemma fetch_rate_limited_gives_up_witness :
  (forall n, (n < max_retries)%nat ->
     exists body, api Samples.rate_limited "ethereum" n = Http 429 body)
  /\ fst (fetch_crypto_data Samples.rate_limited "ethereum" 30) = Return None
  /\ requests_for "ethereum" (snd (fetch_crypto_data Samples.rate_limited "ethereum" 30)) = 3%nat
  /\ sleeps (snd (fetch_crypto_data Samples.rate_limited "ethereum" 30)) = [5; 5; 5].
Proof.
  assert (H : forall n, (n < max_retries)%nat ->
            exists body, api Samples.rate_limited "ethereum" n = Http 429 body).
  { intros n _. exists None. reflexivity. }
  split; [exact H|].
  exact (fetch_rate_limited_gives_up Samples.rate_limited "ethereum" 30 H).
Defined.

(** C3, as stated, fails: an HTTP 500 is surfaced at the first attempt,
    after one request and without any delay. *)
Lemma fetch_server_error_fails_at_once :
  fst (fetch_crypto_data Samples.server_error "bitcoin" 30) = Raise (HTTPError 500)
  /\ requests_for "bitcoin" (snd (fetch_crypto_data Samples.server_error "bitcoin" 30)) = 1%nat
  /\ sleeps (snd (fetch_crypto_data Samples.server_error "bitcoin" 30)) = [].
Proof.
  vm_compute. repeat split.
Qed.

(** C3, amended: when [requests.get] itself fails on every attempt
    (connection error, timeout), the fetch makes exactly 3 requests with a
    5 second sleep between them and then raises; an HTTP error status other
    than 429 is raised at the first attempt, after one request and no
    sleep. *)
Theorem fetch_retries_connection_failures
  (w : env) (coin : string) (days : Z)
  (w' : env) (coin' : string) (days' : Z) (status : Z) (body : option market_chart)
  (Hconn : forall n, (n < max_retries)%nat -> api w coin n = ConnectionFailure)
  (Hhttp : api w' coin' 0%nat = Http status body)
  (Herr : raise_for_status status = true)
  (Hnot429 : status <> 429) :
  (fst (fetch_crypto_data w coin days) = Raise RequestException
   /\ requests_for coin (snd (fetch_crypto_data w coin days)) = 3%nat
   /\ sleeps (snd (fetch_crypto_data w coin days)) = [5; 5])
  /\ (fst (fetch_crypto_data w' coin' days') = Raise (HTTPError status)
      /\ requests_for coin' (snd (fetch_crypto_data w' coin' days')) = 1%nat
      /\ sleeps (snd (fetch_crypto_data w' coin' days')) = []).
Proof.
  split.
  - unfold fetch_crypto_data, max_retries in *.
    simpl. rewrite (Hconn 0%nat), (Hconn 1%nat), (Hconn 2%nat) by lia. simpl.
    count_requests.
    repeat split; reflexivity.
  - rewrite (fetch_http_error_not_retried w' coin' days' status body Hhttp Herr Hnot429).
    simpl. count_requests.
    repeat split; reflexivity.
Qed.

Lemma fetch_retries_connection_failures_witness :
  (forall n, (n < max_retries)%nat -> api Samples.unreachable "bitcoin" n = ConnectionFailure)
  /\ api Samples.server_error "bitcoin" 0%nat = Http 500 None
  /\ raise_for_status 500 = true
  /\ 500 <> 429
  /\ (fst (fetch_crypto_data Samples.unreachable "bitcoin" 30) = Raise RequestException
      /\ requests_for "bitcoin" (snd (fetch_crypto_data Samples.unreachable "bitcoin" 30)) = 3%nat
      /\ sleeps (snd (fetch_crypto_data Samples.unreachable "bitcoin" 30)) = [5; 5])
  /\ (fst (fetch_crypto_data Samples.server_error "bitcoin" 30) = Raise (HTTPError 500)
      /\ requests_for "bitcoin" (snd (fetch_crypto_data Samples.server_error "bitcoin" 30)) = 1%nat
      /\ sleeps (snd (fetch_crypto_data Samples.server_error "bitcoin" 30)) = []).
Proof.
  assert (H1 : forall n, (n < max_retries)%nat ->
            api Samples.unreachable "bitcoin" n = ConnectionFailure)
    by (intros; reflexivity).
  assert (H2 : api Samples.server_error "bitcoin" 0%nat = Http 500 None)
    by reflexivity.
  assert (H3 : raise_for_status 500 = true) by reflexivity.
  assert (H4 : 500 <> 429) by lia.
  split; [exact H1|]. split; [exact H2|]. split; [exact H3|]. split; [exact H4|].
  exact (fetch_retries_connection_failures
           Samples.unreachable "bitcoin" 30 Samples.server_error "bitcoin" 30
           500 None H1 H2 H3 H4).
Defined.

(** ** The job *)

Lemma fetch_attempts_first_request answer coin days a rest :
  (1 <= requests_for coin (snd (fetch_attempts answer coin days (a :: rest))))%nat.
Proof.
  cbn [fetch_attempts].
  destruct (answer a) as [status body|].
  - destruct (raise_for_status status); [destruct (status =? 429)|].
    + destruct (fetch_attempts answer coin days rest) as [r tr]. cbn [snd].
      rewrite requests_for_cons_get. lia.
    + cbn [snd]. rewrite requests_for_cons_get. lia.
    + cbn [snd]. rewrite requests_for_cons_get. lia.
  - destruct (Nat.eqb a (max_retries - 1)).
    + cbn [snd]. rewrite requests_for_cons_get. lia.
    + destruct (fetch_attempts answer coin days rest) as [r tr]. cbn [snd].
      rewrite requests_for_cons_get. lia.
Qed.

Lemma fetch_makes_a_request w coin days :
  (1 <= requests_for coin (snd (fetch_crypto_data w coin days)))%nat.
Proof.
  unfold fetch_crypto_data. apply fetch_attempts_first_request.
Qed.

Lemma fetch_requests_other w coin days other :
  String.eqb coin other = false ->
  requests_for other (snd (fetch_crypto_data w coin days)) = 0%nat.
Proof.
  intros Hne. unfold fetch_crypto_data. now apply fetch_attempts_requests_other.
Qed.

Lemma store_data_requests w db coin data other :
  requests_for other (snd (store_data w db coin data)) = 0%nat.
Proof.
  unfold store_data. destruct (get_table db coin); [|reflexivity].
  destruct (sqlite_fails w coin); [reflexivity|].
  destruct (forallb _ _); reflexivity.
Qed.

(** What a store that returned did. *)
Lemma store_data_return w db coin data db1 tr :
  store_data w db coin data = (Return db1, tr) ->
  exists t,
    get_table db coin = Some t
    /\ sqlite_fails w coin = false
    /\ db1 = set_table db coin (store_rows t (rows_of_chart (utc_offset w) data))
    /\ tr = [Log INFO (StoredOk coin)]
    /\ forallb (representable (utc_offset w)) (chart_timestamps data) = true.
Proof.
  unfold store_data. destruct (get_table db coin) as [t|]; [|discriminate].
  destruct (sqlite_fails w coin); [discriminate|].
  destruct (forallb _ _); [|discriminate].
  intros H. injection H as <- <-. exists t. repeat split.
Qed.

(** C2, as stated, fails: with bitcoin answered 500 and ethereum served by
    the API, the run raises out of [main] and ethereum is neither requested
    nor stored. *)
Lemma main_bitcoin_failure_skips_ethereum :
  is_raise (fst (fetch_crypto_data Samples.bitcoin_broken "ethereum" days)) = false
  /\ fst (fst (main Samples.bitcoin_broken Samples.empty_db)) = Raise (HTTPError 500)
  /\ requests_for "ethereum" (snd (main Samples.bitcoin_broken Samples.empty_db)) = 0%nat
  /\ ethereum (snd (fst (main Samples.bitcoin_broken Samples.empty_db))) = [].
Proof.
  vm_compute. repeat split.
Qed.

(** C2, amended: a fetch that ends without data (its attempts used up on
    429 answers, or an answer whose body is null) is logged and the job goes
    on to the next asset, which is fetched and, when its fetch returns data
    and its store returns, stored: the run then returns with the database
    that store returned; a fetch or store failure that raises is logged by
    [main] and raised out of it, and the asset after it is neither fetched
    nor stored. *)
Theorem main_continues_only_without_exception
  (w : env) (db : database) (e : exn) (w' : env) (db' : database)
  (Hraise : bitcoin_step_raises w db e)
  (Hnone : fst (fetch_crypto_data w' "bitcoin" days) = Return None) :
  (fst (fst (main w db)) = Raise e
   /\ In (Log ERROR (ErrorInMain e)) (snd (main w db))
   /\ requests_for "ethereum" (snd (main w db)) = 0%nat
   /\ snd (fst (main w db)) = db)
  /\ (In (Log ERROR (NoDataReceived "bitcoin")) (snd (main w' db'))
      /\ (1 <= requests_for "ethereum" (snd (main w' db')))%nat
      /\ forall data db1,
           fst (fetch_crypto_data w' "ethereum" days) = Return (Some data) ->
           fst (store_data w' db' "ethereum" data) = Return db1 ->
           fst (fst (main w' db')) = Return tt
           /\ snd (fst (main w' db')) = db1
           /\ bitcoin db1 = bitcoin db'
           /\ ethereum db1
              = store_rows (ethereum db') (rows_of_chart (utc_offset w') data)).
Proof.
  split.
  - assert (Hb : requests_for "ethereum" (snd (fetch_crypto_data w "bitcoin" days)) = 0%nat)
      by (apply fetch_requests_other; reflexivity).
    unfold main, coins. cbn [process_coins].
    destruct Hraise as [Hf | [data [Hf Hs]]].
    + destruct (fetch_crypto_data w "bitcoin" days) as [r tr]. cbn [fst snd] in *.
      subst r. cbn [fst snd].
      repeat split; [find_event | count_requests; now rewrite Hb].
    + pose proof (store_data_requests w db "bitcoin" data "ethereum") as Hst.
      destruct (fetch_crypto_data w "bitcoin" days) as [r tr]. cbn [fst snd] in *.
      subst r.
      destruct (store_data w db "bitcoin" data) as [rs ts]. cbn [fst snd] in *.
      subst rs. cbn [fst snd].
      repeat split; [find_event | count_requests; now rewrite Hb, Hst].
  - pose proof (fetch_makes_a_request w' "ethereum" days) as Hreq.
    unfold main, coins. cbn [process_coins].
    destruct (fetch_crypto_data w' "bitcoin" days) as [r tr]. cbn [fst] in Hnone.
    subst r.
    destruct (fetch_crypto_data w' "ethereum" days) as [[[data|]|e'] tr'];
      cbn [fst snd] in *.
    + destruct (store_data w' db' "ethereum" data) as [[db1|e1] ts] eqn:Hst;
        cbn [fst snd].
      * split; [find_event|]. split; [count_requests; lia|].
        intros d db2 Hd Hs. injection Hd as Hd. subst d.
        rewrite Hst in Hs. cbn [fst] in Hs. injection Hs as Hs. subst db2.
        apply store_data_return in Hst. destruct Hst as (t & Ht & _ & -> & _).
        cbn in Ht. injection Ht as <-. repeat split.
      * split; [find_event|]. split; [count_requests; lia|].
        intros d db2 Hd Hs. injection Hd as Hd. subst d.
        rewrite Hst in Hs. discriminate Hs.
    + split; [find_event|]. split; [count_requests; lia|].
      intros d db2 Hd. discriminate Hd.
    + split; [find_event|]. split; [count_requests; lia|].
      intros d db2 Hd. discriminate Hd.
Qed.

Lemma main_continues_only_without_exception_witness :
  bitcoin_step_raises Samples.bitcoin_broken Samples.empty_db (HTTPError 500)
  /\ fst (fetch_crypto_data Samples.bitcoin_rate_limited "bitcoin" days) = Return None
  /\ (fst (fst (main Samples.bitcoin_broken Samples.empty_db)) = Raise (HTTPError 500)
      /\ In (Log ERROR (ErrorInMain (HTTPError 500)))
            (snd (main Samples.bitcoin_broken Samples.empty_db))
      /\ requests_for "ethereum" (snd (main Samples.bitcoin_broken Samples.empty_db)) = 0%nat
      /\ snd (fst (main Samples.bitcoin_broken Samples.empty_db)) = Samples.empty_db)
  /\ (In (Log ERROR (NoDataReceived "bitcoin"))
         (snd (main Samples.bitcoin_rate_limited Samples.empty_db))
      /\ (1 <= requests_for "ethereum"
                 (snd (main Samples.bitcoin_rate_limited Samples.empty_db)))%nat
      /\ forall data db1,
           fst (fetch_crypto_data Samples.bitcoin_rate_limited "ethereum" days)
             = Return (Some data) ->
           fst (store_data Samples.bitcoin_rate_limited Samples.empty_db "ethereum" data)
             = Return db1 ->
           fst (fst (main Samples.bitcoin_rate_limited Samples.empty_db)) = Return tt
           /\ snd (fst (main Samples.bitcoin_rate_limited Samples.empty_db)) = db1
           /\ bitcoin db1 = bitcoin Samples.empty_db
           /\ ethereum db1
              = store_rows (ethereum Samples.empty_db)
                  (rows_of_chart (utc_offset Samples.bitcoin_rate_limited) data)).
Proof.
  assert (H1 : bitcoin_step_raises Samples.bitcoin_broken Samples.empty_db (HTTPError 500))
    by (left; reflexivity).
  assert (H2 : fst (fetch_crypto_data Samples.bitcoin_rate_limited "bitcoin" days)
               = Return None) by reflexivity.
  split; [exact H1|]. split; [exact H2|].
  exact (main_continues_only_without_exception
           Samples.bitcoin_broken Samples.empty_db (HTTPError 500)
           Samples.bitcoin_rate_limited Samples.empty_db H1 H2).
Defined.

(** ** Storing *)

Lemma filter_filter_and {A} (f g : A -> bool) (l : list A) :
  filter f (filter g l) = filter (fun x => g x && f x) l.
Proof.
  induction l as [|x l IH]; simpl; [reflexivity|].
  destruct (g x); simpl; [destruct (f x)|]; now rewrite IH.
Qed.

Lemma filter_none {A} (f : A -> bool) (l : list A) :
  (forall x, In x l -> f x = false) -> filter f l = [].
Proof.
  induction l as [|x l IH]; simpl; intros H; [reflexivity|].
  rewrite (H x) by now left. apply IH. intros y Hy. apply H. now right.
Qed.

Lemma filter_all {A} (f : A -> bool) (l : list A) :
  (forall x, In x l -> f x = true) -> filter f l = l.
Proof.
  induction l as [|x l IH]; simpl; intros H; [reflexivity|].
  rewrite (H x) by now left. f_equal. apply IH. intros y Hy. apply H. now right.
Qed.

Lemma store_rows_cons t r rows :
  store_rows t (r :: rows) = store_rows (insert_or_replace t r) rows.
Proof. reflexivity. Qed.

Lemma store_rows_app t rows1 rows2 :
  store_rows t (rows1 ++ rows2) = store_rows (store_rows t rows1) rows2.
Proof. unfold store_rows. apply fold_left_app. Qed.

(** The rows written are rows of the payload or rows already there. *)
Lemma store_rows_in rows : forall t x,
  In x (store_rows t rows) -> In x t \/ In x rows.
Proof.
  induction rows as [|r rows IH]; intros t x Hx; [now left|].
  rewrite store_rows_cons in Hx. apply IH in Hx. destruct Hx as [Hx|Hx].
  - unfold insert_or_replace in Hx. apply in_app_or in Hx. destruct Hx as [Hx|Hx].
    + left. apply filter_In in Hx. tauto.
    + right. left. simpl in Hx. tauto.
  - right. now right.
Qed.

Lemma mem_date_in x rows : In x rows -> mem_date (date x) rows = true.
Proof.
  intros Hx. unfold mem_date. apply existsb_exists. exists x. split; [exact Hx|].
  apply Z.eqb_refl.
Qed.

(** A store keeps the rows whose date the payload does not mention, in
    their order, and appends what the payload alone produces. *)
Lemma store_rows_spec rows : forall t,
  store_rows t rows
  = filter (fun x => negb (mem_date (date x) rows)) t ++ store_rows [] rows.
Proof.
  induction rows as [|r rows IH]; intros t.
  - simpl. rewrite app_nil_r. symmetry. now apply filter_all.
  - rewrite !store_rows_cons. rewrite (IH (insert_or_replace t r)).
    rewrite (IH (insert_or_replace [] r)).
    unfold insert_or_replace. cbn [filter app].
    rewrite filter_app, filter_filter_and, <- app_assoc. f_equal.
    apply filter_ext. intros x. cbn [mem_date existsb].
    rewrite negb_orb. rewrite (Z.eqb_sym (date r) (date x)). reflexivity.
Qed.

Lemma store_rows_idempotent t rows :
  store_rows (store_rows t rows) rows = store_rows t rows.
Proof.
  rewrite (store_rows_spec rows (store_rows t rows)).
  rewrite (store_rows_spec rows t) at 1.
  rewrite filter_app, filter_filter_and.
  rewrite (filter_none _ (store_rows [] rows)).
  - rewrite app_nil_r. rewrite (store_rows_spec rows t). f_equal.
    apply filter_ext. intros x. now destruct (mem_date (date x) rows).
  - intros x Hx. apply store_rows_in in Hx. destruct Hx as [[]|Hx].
    now rewrite (mem_date_in x rows Hx).
Qed.

Lemma rows_on_insert_or_replace t r :
  rows_on (date r) (insert_or_replace t r) = [r].
Proof.
  unfold rows_on, insert_or_replace. rewrite filter_app, filter_filter_and.
  rewrite filter_none.
  - simpl. now rewrite Z.eqb_refl.
  - intros x _. now destruct (date x =? date r).
Qed.

Lemma rows_on_store_rows_other d rows t :
  mem_date d rows = false ->
  rows_on d (store_rows t rows) = rows_on d t.
Proof.
  intros Hd. rewrite store_rows_spec. unfold rows_on.
  rewrite filter_app, filter_filter_and.
  rewrite (filter_none _ (store_rows [] rows)).
  - rewrite app_nil_r. apply filter_ext. intros x.
    destruct (Z.eqb_spec (date x) d) as [->|Hne].
    + now rewrite Hd.
    + apply andb_false_r.
  - intros x Hx. apply store_rows_in in Hx. destruct Hx as [[]|Hx].
    destruct (Z.eqb_spec (date x) d) as [E|Hne]; [|reflexivity].
    rewrite <- E, (mem_date_in x rows Hx) in Hd. discriminate Hd.
Qed.

(** Last write wins: after a store, the date of a payload row that no later
    payload row shares holds exactly that row. *)
Lemma rows_on_store_rows_last t pre r post :
  mem_date (date r) post = false ->
  rows_on (date r) (store_rows t (pre ++ r :: post)) = [r].
Proof.
  intros Hpost. rewrite store_rows_app, store_rows_cons.
  rewrite rows_on_store_rows_other by exact Hpost.
  apply rows_on_insert_or_replace.
Qed.

Lemma get_set_table db coin t t' :
  get_table db coin = Some t ->
  get_table (set_table db coin t') coin = Some t'.
Proof.
  unfold get_table, set_table. intros H.
  destruct (String.eqb coin "bitcoin") eqn:Eb.
  - cbn [bitcoin]. reflexivity.
  - destruct (String.eqb coin "ethereum") eqn:Ee; [|discriminate H].
    cbn [ethereum]. reflexivity.
Qed.

Lemma set_set_table db coin t t' :
  set_table (set_table db coin t) coin t' = set_table db coin t'.
Proof.
  unfold set_table.
  destruct (String.eqb coin "bitcoin") eqn:Eb; [reflexivity|].
  destruct (String.eqb coin "ethereum") eqn:Ee; reflexivity.
Qed.

(** C6: [store_data] is an upsert on the calendar date.  After any store,
    a second successful store of a payload whose last row for date [D] is
    [r] (price [P']) leaves exactly one row for [D] in the table, and it is
    [r]; storing that same payload once more returns the same database, row
    for row. *)
Theorem store_data_upsert
  (w : env) (db db1 db2 : database) (coin : string) (data1 data2 : market_chart)
  (tr1 tr2 : list event) (pre post : list row) (r : row)
  (Hfirst : store_data w db coin data1 = (Return db1, tr1))
  (Hsecond : store_data w db1 coin data2 = (Return db2, tr2))
  (Hrows : rows_of_chart (utc_offset w) data2 = pre ++ r :: post)
  (Hlast : mem_date (date r) post = false) :
  (exists t2, get_table db2 coin = Some t2 /\ rows_on (date r) t2 = [r])
  /\ store_data w db2 coin data2 = (Return db2, tr2).
Proof.
  apply store_data_return in Hfirst. destruct Hfirst as (t & Ht & _ & -> & _).
  apply store_data_return in Hsecond.
  destruct Hsecond as (t1 & Ht1 & Hok & -> & -> & Hrep).
  set (rows2 := rows_of_chart (utc_offset w) data2) in *.
  assert (Hget : get_table (set_table (set_table db coin
                   (store_rows t (rows_of_chart (utc_offset w) data1)))
                   coin (store_rows t1 rows2)) coin = Some (store_rows t1 rows2))
    by (eapply get_set_table; exact Ht1).
  split.
  - exists (store_rows t1 rows2). split; [exact Hget|].
    rewrite Hrows. now apply rows_on_store_rows_last.
  - unfold store_data. rewrite Hget, Hok, Hrep. fold rows2.
    now rewrite store_rows_idempotent, set_set_table.
Qed.

Lemma store_data_upsert_witness :
  store_data Samples.healthy Samples.empty_db "bitcoin" Samples.two_days
    = (Return Samples.stored_once, [Log INFO (StoredOk "bitcoin")])
  /\ store_data Samples.healthy Samples.stored_once "bitcoin" Samples.two_days_again
     = (Return Samples.stored_twice, [Log INFO (StoredOk "bitcoin")])
  /\ rows_of_chart (utc_offset Samples.healthy) Samples.two_days_again
     = [Samples.day 0 100%Q] ++ Samples.day 1 125%Q :: []
  /\ mem_date (date (Samples.day 1 125%Q)) [] = false
  /\ (exists t2, get_table Samples.stored_twice "bitcoin" = Some t2
                 /\ rows_on (date (Samples.day 1 125%Q)) t2 = [Samples.day 1 125%Q])
  /\ store_data Samples.healthy Samples.stored_twice "bitcoin" Samples.two_days_again
     = (Return Samples.stored_twice, [Log INFO (StoredOk "bitcoin")]).
Proof.
  assert (H1 : store_data Samples.healthy Samples.empty_db "bitcoin" Samples.two_days
               = (Return Samples.stored_once, [Log INFO (StoredOk "bitcoin")]))
    by reflexivity.
  assert (H2 : store_data Samples.healthy Samples.stored_once "bitcoin"
                 Samples.two_days_again
               = (Return Samples.stored_twice, [Log INFO (StoredOk "bitcoin")]))
    by reflexivity.
  assert (H3 : rows_of_chart (utc_offset Samples.healthy) Samples.two_days_again
               = [Samples.day 0 100%Q] ++ Samples.day 1 125%Q :: [])
    by reflexivity.
  assert (H4 : mem_date (date (Samples.day 1 125%Q)) [] = false) by reflexivity.
  split; [exact H1|]. split; [exact H2|]. split; [exact H3|]. split; [exact H4|].
  exact (store_data_upsert Samples.healthy Samples.empty_db Samples.stored_once
           Samples.stored_twice "bitcoin" Samples.two_days Samples.two_days_again
           _ _ _ _ _ H1 H2 H3 H4).
Defined.

End CollectorFacts.

(** * Properties of the Analyzer *)

Section SortFacts.
Import Analyzer.

Lemma insert_by_date_perm r l : Permutation (r :: l) (insert_by_date r l).
Proof.
  induction l as [|x l IH]; simpl; [apply Permutation_refl|].
  destruct (date r <=? date x); [apply Permutation_refl|].
  eapply perm_trans; [apply perm_swap|]. now apply perm_skip.
Qed.

Lemma sort_values_perm l : Permutation l (sort_values l).
Proof.
  induction l as [|r l IH]; simpl; [constructor|].
  eapply perm_trans; [apply perm_skip, IH|]. apply insert_by_date_perm.
Qed.

Lemma sort_values_in l r : In r (sort_values l) <-> In r l.
Proof.
  split; apply Permutation_in;
    [apply Permutation_sym|]; apply sort_values_perm.
Qed.

Lemma insert_by_date_sorted r l :
  Sorted Z.le (map date l) -> Sorted Z.le (map date (insert_by_date r l)).
Proof.
  induction l as [|x l IH]; simpl; intros Hs.
  - repeat constructor.
  - destruct (Z.leb_spec (date r) (date x)) as [Hle|Hgt]; simpl.
    + constructor; [exact Hs|]. now constructor.
    + inversion Hs as [|? ? Hs' Hhd]; subst.
      constructor; [now apply IH|].
      destruct l as [|y l]; simpl.
      * constructor. lia.
      * destruct (Z.leb_spec (date r) (date y)); simpl; constructor.
        -- lia.
        -- now inversion Hhd.
Qed.

Lemma sort_values_sorted l : Sorted Z.le (map date (sort_values l)).
Proof.
  induction l as [|r l IH]; simpl; [constructor|].
  now apply insert_by_date_sorted.
Qed.

(** Rows of different dates are inserted in either order with the same
    outcome. *)
Lemma insert_by_date_comm a b l :
  date a <> date b ->
  insert_by_date a (insert_by_date b l) = insert_by_date b (insert_by_date a l).
Proof.
  intros Hne. induction l as [|x l IH]; simpl.
  - destruct (Z.leb_spec (date a) (date b)), (Z.leb_spec (date b) (date a));
      try reflexivity; lia.
  - destruct (Z.leb_spec (date b) (date x)) as [Hbx|Hbx],
             (Z.leb_spec (date a) (date x)) as [Hax|Hax]; simpl.
    + destruct (Z.leb_spec (date a) (date b)), (Z.leb_spec (date b) (date a));
        try lia; simpl.
      * destruct (Z.leb_spec (date b) (date x)); [reflexivity|lia].
      * destruct (Z.leb_spec (date a) (date x)); [reflexivity|lia].
    + destruct (Z.leb_spec (date a) (date b)); [lia|]. simpl.
      destruct (Z.leb_spec (date a) (date x)); [lia|].
      destruct (Z.leb_spec (date b) (date x)); [reflexivity|lia].
    + destruct (Z.leb_spec (date b) (date a)); [lia|]. simpl.
      destruct (Z.leb_spec (date a) (date x)); [|lia].
      destruct (Z.leb_spec (date b) (date x)); [lia|reflexivity].
    + destruct (Z.leb_spec (date a) (date x)); [lia|].
      destruct (Z.leb_spec (date b) (date x)); [lia|].
      now rewrite IH.
Qed.

(** With distinct dates the sorted frame does not depend on the order
    of the rows. *)
Lemma sort_values_order_independent l l' :
  Permutation l l' -> NoDup (map date l) -> sort_values l = sort_values l'.
Proof.
  induction 1 as [|x l l' Hp IH|x y l|l l' l'' Hp1 IH1 Hp2 IH2]; intros Hnd.
  - reflexivity.
  - simpl. rewrite IH; [reflexivity|]. now inversion Hnd.
  - simpl. apply insert_by_date_comm.
    simpl in Hnd. inversion Hnd as [|? ? Hnin _]; subst.
    intros E. apply Hnin. left. now symmetry.
  - rewrite IH1 by exact Hnd. apply IH2.
    eapply Permutation_NoDup; [|exact Hnd]. now apply Permutation_map.
Qed.

(** A frame already in date order is left as it is. *)
Lemma sort_values_of_sorted l :
  Sorted Z.le (map date l) -> sort_values l = l.
Proof.
  induction l as [|r l IH]; simpl; intros Hs; [reflexivity|].
  inversion Hs as [|? ? Hs' Hhd]; subst. rewrite IH by exact Hs'.
  destruct l as [|x l]; simpl; [reflexivity|].
  simpl in Hhd. inversion Hhd; subst.
  destruct (Z.leb_spec (date r) (date x)); [reflexivity|lia].
Qed.

End SortFacts.

Section CleaningFacts.
Import Analyzer.

(** ** Interpolation *)

Lemma enumerate_snd {A} (l : list A) : forall i, map snd (enumerate i l) = l.
Proof.
  induction l as [|x l IH]; intros i; simpl; [reflexivity|]. now rewrite IH.
Qed.

Lemma enumerate_map {A B} (f : A -> B) (l : list A) : forall i,
  enumerate i (map f l) = map (fun p => (fst p, f (snd p))) (enumerate i l).
Proof.
  induction l as [|x l IH]; intros i; simpl; [reflexivity|]. now rewrite IH.
Qed.

Lemma in_enumerate {A} (x : A) (l : list A) : forall i,
  In x l -> exists k, In (k, x) (enumerate i l).
Proof.
  induction l as [|y l IH]; intros i Hx; [contradiction|].
  destruct Hx as [->|Hx].
  - exists i. now left.
  - destruct (IH (S i) Hx) as [k Hk]. exists k. now right.
Qed.

Lemma interpolate_date df : map date (interpolate df) = map date df.
Proof.
  transitivity (map (fun p => date (snd p)) (enumerate 0 df)).
  - unfold interpolate. rewrite map_map. apply map_ext. now intros [i r].
  - rewrite <- (map_map snd date). now rewrite enumerate_snd.
Qed.

Lemma interpolate_price df :
  map price (interpolate df) = interpolate_col (map price df).
Proof.
  unfold interpolate, interpolate_col. rewrite enumerate_map, !map_map.
  apply map_ext. now intros [i r].
Qed.

Lemma interpolate_volume df :
  map volume (interpolate df) = interpolate_col (map volume df).
Proof.
  unfold interpolate, interpolate_col. rewrite enumerate_map, !map_map.
  apply map_ext. now intros [i r].
Qed.

(** Interpolation fills gaps only: a value that is there stays, on the row
    of the same date. *)
Lemma interpolate_keeps df r :
  In r df ->
  exists r1,
    In r1 (interpolate df)
    /\ date r1 = date r
    /\ (forall v, price r = Some v -> price r1 = Some v)
    /\ (forall v, volume r = Some v -> volume r1 = Some v).
Proof.
  intros Hr. destruct (in_enumerate r df 0%nat Hr) as [k Hk].
  eexists. split.
  - unfold interpolate. apply in_map_iff. exists (k, r). split; [reflexivity|exact Hk].
  - cbn [date price volume]. repeat split; intros v ->; reflexivity.
Qed.

(** ** Filtering *)

Lemma le0_gt0 x : le0 x = true -> gt0 x = false.
Proof.
  destruct x as [q|]; simpl; [|discriminate]. unfold Qltb. now intros ->.
Qed.

Lemma has_anomaly_cols df :
  has_anomaly df = existsb le0 (map price df) || existsb le0 (map volume df).
Proof.
  unfold has_anomaly. f_equal; induction df as [|r df IH]; simpl; congruence.
Qed.

Lemma has_anomaly_in df r :
  In r df -> le0 (price r) = true \/ le0 (volume r) = true -> has_anomaly df = true.
Proof.
  intros Hr [H|H]; unfold has_anomaly; apply orb_true_iff; [left|right];
    apply existsb_exists; exists r; now split.
Qed.

Lemma no_anomaly_in df r :
  has_anomaly df = false -> In r df -> le0 (price r) = false /\ le0 (volume r) = false.
Proof.
  intros Hno Hr.
  destruct (le0 (price r)) eqn:Ep.
  - rewrite (has_anomaly_in df r Hr) in Hno by now left. discriminate Hno.
  - destruct (le0 (volume r)) eqn:Ev; [|now split].
    rewrite (has_anomaly_in df r Hr) in Hno by now right. discriminate Hno.
Qed.

Lemma keep_positive_in df r :
  In r (keep_positive df) -> In r df /\ gt0 (price r) = true /\ gt0 (volume r) = true.
Proof.
  unfold keep_positive. intros H. apply filter_In in H. destruct H as [Hin Hb].
  apply andb_true_iff in Hb. tauto.
Qed.

Lemma gt0_not_le0 x : gt0 x = true -> le0 x = false.
Proof.
  destruct x as [q|]; simpl; [|reflexivity]. unfold Qltb.
  now destruct (Qle_bool q 0).
Qed.

(** ** Order of the input *)

Lemma existsb_perm {A} (f : A -> bool) l l' :
  Permutation l l' -> existsb f l = existsb f l'.
Proof.
  induction 1 as [|x l l' _ IH|x y l|l l' l'' _ IH1 _ IH2]; simpl.
  - reflexivity.
  - now rewrite IH.
  - now destruct (f x), (f y).
  - now rewrite IH1.
Qed.

Lemma filter_perm {A} (f : A -> bool) l l' :
  Permutation l l' -> Permutation (filter f l) (filter f l').
Proof.
  induction 1 as [|x l l' _ IH|x y l|l l' l'' _ IH1 _ IH2]; simpl.
  - constructor.
  - destruct (f x); [now constructor|exact IH].
  - destruct (f x), (f y); try apply Permutation_refl. apply perm_swap.
  - now apply perm_trans with (filter f l').
Qed.

Lemma NoDup_map_filter {A B} (g : A -> B) (f : A -> bool) l :
  NoDup (map g l) -> NoDup (map g (filter f l)).
Proof.
  induction l as [|x l IH]; simpl; intros Hnd; [constructor|].
  inversion Hnd as [|? ? Hnin Hnd']; subst.
  destruct (f x); simpl; [|now apply IH].
  constructor; [|now apply IH].
  intros Hin. apply Hnin. apply in_map_iff in Hin. destruct Hin as (y & Ey & Hy).
  apply in_map_iff. exists y. split; [exact Ey|]. apply filter_In in Hy. tauto.
Qed.

Lemma NoDup_map_eq {A B} (g : A -> B) l x y :
  NoDup (map g l) -> In x l -> In y l -> g x = g y -> x = y.
Proof.
  induction l as [|z l IH]; simpl; intros Hnd Hx Hy E; [contradiction|].
  inversion Hnd as [|? ? Hnin Hnd']; subst.
  destruct Hx as [->|Hx], Hy as [->|Hy].
  - reflexivity.
  - exfalso. apply Hnin. rewrite E. now apply in_map.
  - exfalso. apply Hnin. rewrite <- E. now apply in_map.
  - now apply IH.
Qed.

(** ** The cleaning stage *)

(** C5, as stated, fails: the same three observations, presented with the
    missing one first, come out with another price for day 2, because the
    gaps are filled over the rows as presented, before the sort. *)
Lemma clean_data_depends_on_order :
  Permutation Samples.gap_in_order Samples.gap_first
  /\ map date (clean_data Samples.gap_in_order) = [1; 2; 3]
  /\ map date (clean_data Samples.gap_first) = [1; 2; 3]
  /\ map price (clean_data Samples.gap_in_order) = [Some 10%Q; Some 20%Q; Some 30%Q]
  /\ map price (clean_data Samples.gap_first) = [Some 10%Q; Some 10%Q; Some 30%Q]
  /\ clean_data Samples.gap_in_order <> clean_data Samples.gap_first.
Proof.
  split; [apply perm_swap|].
  repeat (split; [reflexivity|]).
  intros E. apply (f_equal (map price)) in E. vm_compute in E. discriminate E.
Qed.

(** C5, amended: for observations with distinct dates and no missing value,
    the cleaning stage gives the same rows in the same order whatever the
    order of the input. *)
Theorem clean_data_order_independent (df df' : list row)
  (Hperm : Permutation df df')
  (Hkey : NoDup (map date df))
  (Hfull : isnull_any df = false) :
  clean_data df = clean_data df'.
Proof.
  assert (Hfull' : isnull_any df' = false).
  { rewrite <- Hfull. symmetry. now apply existsb_perm. }
  assert (Han : has_anomaly df' = has_anomaly df).
  { unfold has_anomaly. f_equal; symmetry; now apply existsb_perm. }
  unfold clean_data. rewrite Hfull, Hfull', Han. destruct (has_anomaly df).
  - apply sort_values_order_independent.
    + now apply filter_perm.
    + now apply NoDup_map_filter.
  - now apply sort_values_order_independent.
Qed.

Lemma clean_data_order_independent_witness :
  Permutation Samples.complete_a Samples.complete_b
  /\ NoDup (map date Samples.complete_a)
  /\ isnull_any Samples.complete_a = false
  /\ clean_data Samples.complete_a = clean_data Samples.complete_b.
Proof.
  assert (H1 : Permutation Samples.complete_a Samples.complete_b) by apply perm_swap.
  assert (H2 : NoDup (map date Samples.complete_a)).
  { simpl. repeat constructor; simpl; intuition lia. }
  assert (H3 : isnull_any Samples.complete_a = false) by reflexivity.
  split; [exact H1|]. split; [exact H2|]. split; [exact H3|].
  exact (clean_data_order_independent Samples.complete_a Samples.complete_b H1 H2 H3).
Defined.

Lemma Qle_bool_pos_false (v : Q) : (0 < v)%Q -> Qle_bool v 0 = false.
Proof.
  intros Hv. destruct (Qle_bool v 0) eqn:E; [|reflexivity].
  apply Qle_bool_iff in E. exfalso. exact (Qlt_not_le _ _ Hv E).
Qed.

(** C7, as stated, fails: observations at the three consecutive days 1, 2
    and 3, the price of day 2 missing and the neighbours holding 10 and 30,
    with the row of day 2 last in the frame.  The cleaning stage returns,
    and the price it gives day 2 is 30: the gap is filled over the rows as
    presented, where the row of day 2 has no neighbour after it. *)
Lemma interpolation_ignores_the_dates :
  map date Samples.gap_last = [1; 3; 2]
  /\ map price Samples.gap_last = [Some 10%Q; Some 30%Q; None]
  /\ clean_frame Samples.gap_last = Return (clean_data Samples.gap_last)
  /\ map date (clean_data Samples.gap_last) = [1; 2; 3]
  /\ map price (clean_data Samples.gap_last) = [Some 10%Q; Some 30%Q; Some 30%Q].
Proof.
  repeat split.
Qed.

(** C7, amended: three consecutive days whose rows are presented in date
    order, with prices 10, missing, 30; the volumes of the two neighbours
    are positive and that of the middle day is positive or missing as well,
    and the market caps are not all missing.  The cleaning stage returns,
    the cleaned frame has the three days and the price of the middle day is
    20. *)
Theorem clean_data_interpolates_midpoint
  (d : Z) (v1 : Q) (v2 : option Q) (v3 : Q) (m1 m2 m3 : option Q)
  (Hv1 : (0 < v1)%Q) (Hv2 : le0 v2 = false) (Hv3 : (0 < v3)%Q)
  (Hcap : all_null [m1; m2; m3] = false) :
  let df := [mkRow d (Some 10%Q) (Some v1) m1;
             mkRow (d + 1) None v2 m2;
             mkRow (d + 2) (Some 30%Q) (Some v3) m3] in
  clean_frame df = Return (clean_data df)
  /\ map date (clean_data df) = [d; d + 1; d + 2]
  /\ map price (clean_data df) = [Some 10%Q; Some 20%Q; Some 30%Q].
Proof.
  intros df.
  assert (Hcol : exists q, interpolate_col [Some v1; v2; Some v3] = [Some v1; q; Some v3]
                           /\ le0 q = false).
  { destruct v2 as [v2|].
    - exists (Some v2). now split.
    - eexists. split; [reflexivity|]. cbn [le0].
      apply Qle_bool_pos_false. rewrite Qred_correct.
      change (Qpos_index 2 - Qpos_index 0)%Q with 2%Q.
      change (Qpos_index 1 - Qpos_index 0)%Q with 1%Q.
      setoid_replace ((v3 - v1) / 2 * 1 + v1)%Q with ((v1 + v3) * (1 # 2))%Q by field.
      lra. }
  destruct Hcol as (q & Hq & Hle).
  assert (Hnull : isnull_any df = true).
  { apply existsb_exists. exists (mkRow (d + 1) None v2 m2).
    split; [right; left; reflexivity|reflexivity]. }
  assert (Hprice : map price (interpolate df) = [Some 10%Q; Some 20%Q; Some 30%Q])
    by (rewrite interpolate_price; reflexivity).
  assert (Hvol : map volume (interpolate df) = [Some v1; q; Some v3])
    by (rewrite interpolate_volume; exact Hq).
  assert (Hdate : map date (interpolate df) = [d; d + 1; d + 2])
    by (rewrite interpolate_date; reflexivity).
  assert (Hclean : clean_data df = interpolate df).
  { unfold clean_data. rewrite Hnull, has_anomaly_cols, Hprice, Hvol.
    cbn [existsb]. rewrite Hle. cbn [le0].
    rewrite (Qle_bool_pos_false v1 Hv1), (Qle_bool_pos_false v3 Hv3).
    change (Qle_bool 10 0) with false. change (Qle_bool 20 0) with false.
    change (Qle_bool 30 0) with false. cbn [orb].
    apply sort_values_of_sorted. rewrite Hdate.
    repeat constructor; lia. }
  split.
  - unfold clean_frame, clean_data_raises. rewrite Hnull.
    change (map market_cap df) with [m1; m2; m3]. rewrite Hcap. reflexivity.
  - rewrite Hclean. now split.
Qed.

Lemma clean_data_interpolates_midpoint_witness :
  (0 < 5)%Q /\ le0 None = false /\ (0 < 7)%Q
  /\ all_null [Some 1%Q; None; Some 3%Q] = false
  /\ let df := [mkRow 19000 (Some 10%Q) (Some 5%Q) (Some 1%Q);
                mkRow (19000 + 1) None None None;
                mkRow (19000 + 2) (Some 30%Q) (Some 7%Q) (Some 3%Q)] in
     clean_frame df = Return (clean_data df)
     /\ map date (clean_data df) = [19000; 19000 + 1; 19000 + 2]
     /\ map price (clean_data df) = [Some 10%Q; Some 20%Q; Some 30%Q].
Proof.
  assert (H1 : (0 < 5)%Q) by reflexivity.
  assert (H2 : le0 None = false) by reflexivity.
  assert (H3 : (0 < 7)%Q) by reflexivity.
  assert (H4 : all_null [Some 1%Q; None; Some 3%Q] = false) by reflexivity.
  split; [exact H1|]. split; [exact H2|]. split; [exact H3|]. split; [exact H4|].
  exact (clean_data_interpolates_midpoint 19000 5 None 7 (Some 1%Q) None (Some 3%Q)
           H1 H2 H3 H4).
Defined.

Lemma clean_data_rows df r :
  In r (clean_data df) ->
  let df1 := if isnull_any df then interpolate df else df in
  In r df1
  /\ (has_anomaly df1 = true -> gt0 (price r) = true /\ gt0 (volume r) = true)
  /\ le0 (price r) = false /\ le0 (volume r) = false.
Proof.
  unfold clean_data. intros Hr. cbn zeta.
  set (df1 := if isnull_any df then interpolate df else df) in *.
  apply (proj1 (sort_values_in _ _)) in Hr.
  destruct (has_anomaly df1) eqn:Han.
  - apply keep_positive_in in Hr. destruct Hr as (Hin & Hp & Hv).
    repeat split; auto using gt0_not_le0.
  - destruct (no_anomaly_in df1 r Han Hr). repeat split; auto; discriminate.
Qed.

(** A row with a positive price and a positive volume comes through the
    cleaning stage, under its date and with that price and volume. *)
Lemma clean_data_keeps_positive df r :
  In r df -> gt0 (price r) = true -> gt0 (volume r) = true ->
  exists r1,
    In r1 (clean_data df)
    /\ date r1 = date r /\ price r1 = price r /\ volume r1 = volume r.
Proof.
  intros Hr Hp Hv.
  set (df1 := if isnull_any df then interpolate df else df).
  assert (H1 : exists r1, In r1 df1
                 /\ date r1 = date r /\ price r1 = price r /\ volume r1 = volume r).
  { unfold df1. destruct (isnull_any df); [|now exists r].
    destruct (interpolate_keeps df r Hr) as (r1 & Hin & Hd & Hkp & Hkv).
    exists r1. split; [exact Hin|]. split; [exact Hd|].
    destruct (price r) as [p|]; [|discriminate Hp].
    destruct (volume r) as [v|]; [|discriminate Hv].
    now rewrite (Hkp p eq_refl), (Hkv v eq_refl). }
  destruct H1 as (r1 & Hin & Hd & Ep & Ev).
  exists r1. split; [|now repeat split].
  unfold clean_data. fold df1. apply sort_values_in.
  destruct (has_anomaly df1); [|exact Hin].
  unfold keep_positive. apply filter_In. split; [exact Hin|].
  now rewrite Ep, Ev, Hp, Hv.
Qed.

(** C8: with one observation per date, a row whose price or volume is zero
    or negative has no row for its date in the cleaned frame (so it is not
    there under an interpolated value either); a row whose price and volume
    are positive remains, under its date and with that price and volume; no
    cleaned row has a non-positive price or volume; the cleaned rows are
    rows of dates of the input, in ascending date order. *)
Theorem clean_data_drops_nonpositive (df : list row)
  (Hkey : NoDup (map date df)) :
  (forall r, In r df ->
     le0 (price r) = true \/ le0 (volume r) = true ->
     ~ In (date r) (map date (clean_data df)))
  /\ (forall r, In r df ->
        gt0 (price r) = true -> gt0 (volume r) = true ->
        exists r1, In r1 (clean_data df)
                   /\ date r1 = date r /\ price r1 = price r /\ volume r1 = volume r)
  /\ (forall r, In r (clean_data df) -> le0 (price r) = false /\ le0 (volume r) = false)
  /\ (forall r, In r (clean_data df) -> In (date r) (map date df))
  /\ Sorted Z.le (map date (clean_data df)).
Proof.
  assert (Hdates : map date (if isnull_any df then interpolate df else df) = map date df).
  { destruct (isnull_any df); [apply interpolate_date|reflexivity]. }
  split; [|split; [|split; [|split]]].
  - intros r Hr Hbad Hin.
    apply in_map_iff in Hin. destruct Hin as (r' & Edate & Hr').
    apply clean_data_rows in Hr'. cbn zeta in Hr'.
    set (df1 := if isnull_any df then interpolate df else df) in *.
    destruct Hr' as (Hin1 & Hpos & _).
    fold df1 in Hdates.
    assert (Hsame : exists r1, In r1 df1 /\ date r1 = date r
                      /\ (le0 (price r1) = true \/ le0 (volume r1) = true)).
    { unfold df1. destruct (isnull_any df).
      - destruct (interpolate_keeps df r Hr) as (r1 & H1 & Hd & Hp & Hv).
        exists r1. split; [exact H1|]. split; [exact Hd|].
        destruct Hbad as [Hb|Hb]; [left|right].
        + destruct (price r) as [p|]; [|discriminate Hb]. now rewrite (Hp p eq_refl).
        + destruct (volume r) as [v|]; [|discriminate Hb]. now rewrite (Hv v eq_refl).
      - exists r. auto. }
    destruct Hsame as (r1 & Hin1' & Hd1 & Hbad1).
    assert (E : r' = r1).
    { apply (NoDup_map_eq date df1); try assumption.
      - now rewrite Hdates.
      - congruence. }
    subst r'.
    destruct (Hpos (has_anomaly_in df1 r1 Hin1' Hbad1)) as [Hp Hv].
    destruct Hbad1 as [Hb|Hb]; apply le0_gt0 in Hb; congruence.
  - intros r Hr Hp Hv. now apply clean_data_keeps_positive.
  - intros r Hr. apply clean_data_rows in Hr. cbn zeta in Hr. tauto.
  - intros r Hr. apply clean_data_rows in Hr. cbn zeta in Hr.
    rewrite <- Hdates. apply in_map. tauto.
  - unfold clean_data. apply sort_values_sorted.
Qed.

Lemma clean_data_drops_nonpositive_witness :
  NoDup (map date Samples.dirty)
  /\ (forall r, In r Samples.dirty ->
        le0 (price r) = true \/ le0 (volume r) = true ->
        ~ In (date r) (map date (clean_data Samples.dirty)))
  /\ (forall r, In r Samples.dirty ->
        gt0 (price r) = true -> gt0 (volume r) = true ->
        exists r1, In r1 (clean_data Samples.dirty)
                   /\ date r1 = date r /\ price r1 = price r /\ volume r1 = volume r)
  /\ (forall r, In r (clean_data Samples.dirty) ->
        le0 (price r) = false /\ le0 (volume r) = false)
  /\ (forall r, In r (clean_data Samples.dirty) -> In (date r) (map date Samples.dirty))
  /\ Sorted Z.le (map date (clean_data Samples.dirty)).
Proof.
  assert (H : NoDup (map date Samples.dirty)).
  { simpl. repeat constructor; simpl; intuition lia. }
  split; [exact H|].
  exact (clean_data_drops_nonpositive Samples.dirty H).
Defined.

End CleaningFacts.

Section StatisticsFacts.
Import Analyzer.

Variable sqrt : Q -> Q.

Lemma iloc_raises col i e : iloc col i = Raise e -> e = IndexError.
Proof.
  unfold iloc.
  destruct ((0 <=? _) && (_ <? _)); [|now intros [= <-]].
  destruct (nth_error col _); [discriminate|now intros [= <-]].
Qed.

Lemma iloc_empty i : iloc [] i = Raise IndexError.
Proof.
  unfold iloc. cbn [List.length Z.of_nat].
  set (k := if i <? 0 then 0 + i else i).
  destruct (Z.leb_spec 0 k), (Z.ltb_spec k 0); try reflexivity; lia.
Qed.

Lemma iloc_in_range col i :
  col <> [] -> i = 0 \/ i = -1 -> exists y, iloc col i = Return y.
Proof.
  intros Hne Hi. unfold iloc.
  assert (Hlen : 0 < Z.of_nat (List.length col))
    by (destruct col; [contradiction|simpl; lia]).
  set (k := if i <? 0 then Z.of_nat (List.length col) + i else i).
  assert (Hk : 0 <= k < Z.of_nat (List.length col))
    by (unfold k; destruct Hi as [-> | ->]; simpl; lia).
  destruct (Z.leb_spec 0 k); [|lia]. destruct (Z.ltb_spec k (Z.of_nat (List.length col))); [|lia].
  cbn [andb].
  destruct (nth_error col (Z.to_nat k)) as [y|] eqn:E; [now exists y|].
  apply nth_error_None in E. lia.
Qed.

(** The statistics of one coin exist exactly for a non-empty frame; the
    only exception they raise is [IndexError]. *)
Lemma summarize_empty : summarize sqrt [] = Raise IndexError.
Proof. reflexivity. Qed.

Lemma summarize_nonempty df :
  df <> [] -> exists s, summarize sqrt df = Return s.
Proof.
  intros Hne. unfold summarize.
  assert (Hcol : map price df <> []) by (destruct df; [contradiction|discriminate]).
  destruct (iloc_in_range (map price df) (-1) Hcol) as [l El]; [now right|].
  destruct (iloc_in_range (map price df) 0 Hcol) as [f Ef]; [now left|].
  rewrite El, Ef. cbn [bind]. eauto.
Qed.

(** C4, as stated, fails: on a store whose bitcoin rows are all filtered
    out, the cleaned series is empty, its mean is NaN, and the run ends
    with the [IndexError] of [.iloc[-1]]; nothing tests for an empty
    series. *)
Lemma empty_series_raises_index_error :
  clean_data (bitcoin Samples.worthless_db) = []
  /\ mean (map price (clean_data (bitcoin Samples.worthless_db))) = None
  /\ Analyzer.main Samples.sqrt_6dp Samples.worthless_db = Raise IndexError.
Proof.
  repeat split.
Qed.

(** C4, amended: when the cleaned series of either asset is empty,
    [analyze_data] raises [IndexError], the error of the positional access
    to the last price, and returns no summary value, NaN or other. *)
Theorem analyze_data_empty_series (db : database) (btc_df eth_df : list row)
  (Hempty : btc_df = [] \/ eth_df = []) :
  analyze_data sqrt db btc_df eth_df = Raise IndexError.
Proof.
  unfold analyze_data. destruct Hempty as [-> | ->].
  - reflexivity.
  - destruct (summarize sqrt btc_df) as [s|e] eqn:E; cbn [bind]; [reflexivity|].
    destruct btc_df as [|r df]; [now injection E as <-|].
    destruct (summarize_nonempty (r :: df)) as [s Es]; [discriminate|].
    rewrite Es in E. discriminate E.
Qed.

Lemma weekday_agg_in t g :
  In g (weekday_agg t) ->
  weekday_group t (weekday_num g) <> []
  /\ avg_price g = mean (map price (weekday_group t (weekday_num g)))
  /\ wd_avg_volume g = mean (map volume (weekday_group t (weekday_num g))).
Proof.
  unfold weekday_agg. intros Hg. apply in_flat_map in Hg.
  destruct Hg as (n & _ & Hg).
  destruct (weekday_group t n) as [|r rows] eqn:E; [contradiction|].
  destruct Hg as [<-|[]]. cbn [weekday_num avg_price wd_avg_volume].
  rewrite E. repeat split. discriminate.
Qed.

Lemma strftime_w_range d : 0 <= strftime_w d < 7.
Proof.
  unfold strftime_w. apply Z.mod_pos_bound. lia.
Qed.

(** Every row of the table is in the group of an aggregated row, that of
    its weekday. *)
Lemma weekday_agg_covers (t : table) r :
  In r t ->
  exists g, In g (weekday_agg t)
            /\ weekday_num g = strftime_w (date r)
            /\ In r (weekday_group t (weekday_num g)).
Proof.
  intros Hr. set (n := strftime_w (date r)).
  assert (Hgroup : In r (weekday_group t n)).
  { unfold weekday_group. apply filter_In. split; [exact Hr|]. apply Z.eqb_refl. }
  exists (mkWeekday n (weekday_label n) (mean (map price (weekday_group t n)))
                    (mean (map volume (weekday_group t n)))).
  split; [|now split].
  unfold weekday_agg. apply in_flat_map. exists n. split.
  - pose proof (strftime_w_range (date r)) as Hn. fold n in Hn. cbn. lia.
  - destruct (weekday_group t n); [contradiction|]. now left.
Qed.


End StatisticsFacts.

Section StatisticsWitnesses.
Import Analyzer.

Lemma analyze_data_empty_series_witness :
  ([] = @nil row \/ ethereum Samples.worthless_db = [])
  /\ analyze_data Samples.sqrt_6dp Samples.worthless_db [] (ethereum Samples.worthless_db)
     = Raise IndexError.
Proof.
  assert (H : [] = @nil row \/ ethereum Samples.worthless_db = []) by (left; reflexivity).
  split; [exact H|].
  exact (analyze_data_empty_series Samples.sqrt_6dp Samples.worthless_db []
           (ethereum Samples.worthless_db) H).
Defined.

(** On [mixed_db] the aggregation differs from what the cleaned bitcoin
    frame would give: Thursday averages the zero price in. *)
Lemma weekday_agg_of_store_not_of_cleaned :
  map avg_price (weekday_agg (bitcoin Samples.mixed_db)) = [Some (10 # 2); None]
  /\ map avg_price (weekday_agg (clean_data (bitcoin Samples.mixed_db)))
     = [Some 10%Q; Some 5%Q].
Proof.
  split; reflexivity.
Qed.


End StatisticsWitnesses.

(** ** The scan behind [idxmax] and [idxmin] *)

Section ArgScan.
Import Analyzer.

(** [R w v]: the value [v] is at least as good as [w]. *)
Variable better : Q -> Q -> bool.
Variable R : Q -> Q -> Prop.
Hypothesis better_true : forall v b, better v b = true -> ~ R v b.
Hypothesis better_false : forall v b, better v b = false -> R v b.
Hypothesis R_refl : forall v, R v v.
Hypothesis R_trans : forall a b c, R a b -> R b c -> R a c.
Hypothesis R_total : forall v b, ~ R v b -> R b v.

Lemma arg_scan_spec col : forall i bi bv k v,
  arg_scan better (bi, bv) i col = (k, v) ->
  R bv v
  /\ (forall j w, nth_error col j = Some (Some w) -> R w v)
  /\ ((k, v) = (bi, bv)
      \/ exists j,
           k = (i + j)%nat
           /\ nth_error col j = Some (Some v)
           /\ ~ R v bv
           /\ forall j' w, (j' < j)%nat -> nth_error col j' = Some (Some w) -> ~ R v w).
Proof.
  induction col as [|[x|] rest IH]; intros i bi bv k v Hscan; cbn [arg_scan snd] in Hscan.
  - injection Hscan as <- <-. split; [apply R_refl|]. split; [|now left].
    intros [|j] w Hj; discriminate Hj.
  - destruct (better x bv) eqn:Eb.
    + pose proof (better_true _ _ Eb) as Hxb.
      destruct (IH _ _ _ _ _ Hscan) as (Hxv & Hall & Hwhere).
      split; [eapply R_trans; [apply R_total, Hxb|exact Hxv]|]. split.
      * intros [|j] w Hj; cbn [nth_error] in Hj.
        -- now injection Hj as <-.
        -- now apply (Hall j).
      * right. destruct Hwhere as [E | (j & -> & Hj & Hvx & Hbefore)].
        -- injection E as -> ->. exists 0%nat. repeat split.
           ++ lia.
           ++ exact Hxb.
           ++ intros j' w Hlt. lia.
        -- exists (S j). split; [lia|]. split; [exact Hj|]. split.
           ++ intros Hvb. apply Hxb. now apply R_trans with v.
           ++ intros [|j'] w Hlt Hw; cbn [nth_error] in Hw.
              ** now injection Hw as <-.
              ** apply (Hbefore j' w); [lia|exact Hw].
    + pose proof (better_false _ _ Eb) as Hxb.
      destruct (IH _ _ _ _ _ Hscan) as (Hbv & Hall & Hwhere).
      split; [exact Hbv|]. split.
      * intros [|j] w Hj; cbn [nth_error] in Hj.
        -- injection Hj as <-. now apply R_trans with bv.
        -- now apply (Hall j).
      * destruct Hwhere as [E | (j & -> & Hj & Hvb & Hbefore)]; [now left|].
        right. exists (S j). split; [lia|]. split; [exact Hj|]. split; [exact Hvb|].
        intros [|j'] w Hlt Hw; cbn [nth_error] in Hw.
        -- injection Hw as <-. intros Hvx. apply Hvb. now apply R_trans with x.
        -- apply (Hbefore j' w); [lia|exact Hw].
  - destruct (IH _ _ _ _ _ Hscan) as (Hbv & Hall & Hwhere).
    split; [exact Hbv|]. split.
    + intros [|j] w Hj; cbn [nth_error] in Hj; [discriminate Hj|now apply (Hall j)].
    + destruct Hwhere as [E | (j & -> & Hj & Hvb & Hbefore)]; [now left|].
      right. exists (S j). split; [lia|]. split; [exact Hj|]. split; [exact Hvb|].
      intros [|j'] w Hlt Hw; cbn [nth_error] in Hw; [discriminate Hw|].
      apply (Hbefore j' w); [lia|exact Hw].
Qed.

Lemma first_valid_spec col : forall i k v,
  first_valid i col = Some (k, v) ->
  exists j,
    k = (i + j)%nat
    /\ nth_error col j = Some (Some v)
    /\ forall j' w, (j' < j)%nat -> nth_error col j' <> Some (Some w).
Proof.
  induction col as [|[x|] rest IH]; intros i k v H; cbn [first_valid] in H.
  - discriminate H.
  - injection H as <- <-. exists 0%nat. repeat split; [lia|]. intros j' w Hlt. lia.
  - destruct (IH _ _ _ H) as (j & -> & Hj & Hbefore).
    exists (S j). split; [lia|]. split; [exact Hj|].
    intros [|j'] w Hlt; cbn [nth_error]; [discriminate|].
    apply Hbefore. lia.
Qed.

Lemma first_valid_none col : forall i j w,
  first_valid i col = None -> nth_error col j <> Some (Some w).
Proof.
  induction col as [|[x|] rest IH]; intros i j w H; cbn [first_valid] in H.
  - now destruct j.
  - discriminate H.
  - destruct j as [|j]; cbn [nth_error]; [discriminate|]. now apply (IH (S i)).
Qed.

Lemma arg_best_exists col j w :
  nth_error col j = Some (Some w) -> exists i, arg_best better col = Some i.
Proof.
  intros Hj. unfold arg_best.
  destruct (first_valid 0 col) as [b|] eqn:E; [eauto|].
  exfalso. exact (first_valid_none col 0%nat j w E Hj).
Qed.

(** The position found holds a best value and is the first to hold one. *)
Lemma arg_best_first col i :
  arg_best better col = Some i ->
  exists v,
    nth_error col i = Some (Some v)
    /\ (forall j w, nth_error col j = Some (Some w) -> R w v)
    /\ (forall j w, (j < i)%nat -> nth_error col j = Some (Some w) -> ~ R v w).
Proof.
  unfold arg_best. destruct (first_valid 0 col) as [[i0 v0]|] eqn:E; [|discriminate].
  intros [= <-].
  destruct (first_valid_spec col _ _ _ E) as (j0 & -> & Hj0 & Hnone).
  destruct (arg_scan better (0 + j0, v0)%nat 0 col) as [k v] eqn:Es.
  destruct (arg_scan_spec col _ _ _ _ _ Es) as (_ & Hall & Hwhere).
  exists v. cbn [fst].
  destruct Hwhere as [Ekv | (j & -> & Hj & _ & Hbefore)].
  - injection Ekv as -> ->. split; [exact Hj0|]. split; [exact Hall|].
    intros j w Hlt Hw. exfalso. exact (Hnone j w Hlt Hw).
  - split; [exact Hj|]. split; [exact Hall|]. exact Hbefore.
Qed.

End ArgScan.

Section WeekdayFacts.
Import Analyzer.

Lemma Qltb_true x y : Qltb x y = true -> (x < y)%Q.
Proof.
  unfold Qltb. intros H. apply Qnot_le_lt. intros Hle.
  apply Qle_bool_iff in Hle. rewrite Hle in H. discriminate H.
Qed.

Lemma Qltb_false x y : Qltb x y = false -> (y <= x)%Q.
Proof.
  unfold Qltb. intros H. apply Qle_bool_iff. now destruct (Qle_bool y x).
Qed.

Lemma idxmax_first_max col i : idxmax col = Some i -> first_max col i.
Proof.
  intros H.
  destruct (arg_best_first (fun v b => Qltb b v) (fun w v => (w <= v)%Q)) with (col := col) (i := i)
    as (v & Hv & Hall & Hbefore); try exact H.
  - intros v b Hb. apply Qlt_not_le. now apply Qltb_true.
  - intros v b Hb. now apply Qltb_false.
  - apply Qle_refl.
  - apply Qle_trans.
  - intros v b Hn. apply Qlt_le_weak. now apply Qnot_le_lt.
  - exists v. repeat split; [exact Hv|exact Hall|].
    intros j w Hlt Hw. apply Qnot_le_lt. now apply (Hbefore j).
Qed.

Lemma idxmin_first_min col i : idxmin col = Some i -> first_min col i.
Proof.
  intros H.
  destruct (arg_best_first (fun v b => Qltb v b) (fun w v => (v <= w)%Q)) with (col := col) (i := i)
    as (v & Hv & Hall & Hbefore); try exact H.
  - intros v b Hb. apply Qlt_not_le. now apply Qltb_true.
  - intros v b Hb. now apply Qltb_false.
  - apply Qle_refl.
  - intros a b c Hab Hbc. now apply Qle_trans with b.
  - intros v b Hn. apply Qlt_le_weak. now apply Qnot_le_lt.
  - exists v. repeat split; [exact Hv|exact Hall|].
    intros j w Hlt Hw. apply Qnot_le_lt. now apply (Hbefore j).
Qed.

(** The row the report names for a found position. *)
Lemma lookup_row (trends : list weekday_row) i v :
  nth_error (map wd_avg_volume trends) i = Some (Some v) ->
  exists g, nth_error trends i = Some g /\ wd_avg_volume g = Some v.
Proof.
  rewrite nth_error_map. destruct (nth_error trends i) as [g|]; [|discriminate].
  intros [= E]. now exists g.
Qed.

Lemma highest_volume_weekday_first (trends : list weekday_row) j w :
  nth_error (map wd_avg_volume trends) j = Some (Some w) ->
  exists i g,
    idxmax (map wd_avg_volume trends) = Some i
    /\ first_max (map wd_avg_volume trends) i
    /\ nth_error trends i = Some g
    /\ highest_volume_weekday trends = Some (weekday g).
Proof.
  intros Hj.
  destruct (arg_best_exists (fun v b => Qltb b v) _ j w Hj) as [i Hi].
  fold (idxmax (map wd_avg_volume trends)) in Hi.
  pose proof (idxmax_first_max _ _ Hi) as Hfirst.
  destruct Hfirst as (v & Hv & Hrest).
  destruct (lookup_row trends i v Hv) as (g & Hg & _).
  exists i, g. split; [exact Hi|]. split; [now exists v|]. split; [exact Hg|].
  unfold highest_volume_weekday. now rewrite Hi, Hg.
Qed.

Lemma lowest_volume_weekday_first (trends : list weekday_row) j w :
  nth_error (map wd_avg_volume trends) j = Some (Some w) ->
  exists i g,
    idxmin (map wd_avg_volume trends) = Some i
    /\ first_min (map wd_avg_volume trends) i
    /\ nth_error trends i = Some g
    /\ lowest_volume_weekday trends = Some (weekday g).
Proof.
  intros Hj.
  destruct (arg_best_exists (fun v b => Qltb v b) _ j w Hj) as [i Hi].
  fold (idxmin (map wd_avg_volume trends)) in Hi.
  pose proof (idxmin_first_min _ _ Hi) as Hfirst.
  destruct Hfirst as (v & Hv & Hrest).
  destruct (lookup_row trends i v Hv) as (g & Hg & _).
  exists i, g. split; [exact Hi|]. split; [now exists v|]. split; [exact Hg|].
  unfold lowest_volume_weekday. now rewrite Hi, Hg.
Qed.

(** Seven consecutive days meet every weekday. *)
Lemma week_has_every_weekday (t : table) (d0 : Z) :
  (forall k, 0 <= k < 7 -> exists r, In r t /\ date r = d0 + k) ->
  forall n, 0 <= n < 7 -> weekday_group t n <> [].
Proof.
  intros Hweek n Hn.
  destruct (Hweek ((n - d0 - 4) mod 7)) as (r & Hr & Hd).
  { apply Z.mod_pos_bound. lia. }
  intros Hnil.
  assert (Hin : In r (weekday_group t n)).
  { unfold weekday_group. apply filter_In. split; [exact Hr|].
    apply Z.eqb_eq. unfold strftime_w. rewrite Hd.
    Z.to_euclidean_division_equations. lia. }
  rewrite Hnil in Hin. contradiction.
Qed.

Lemma weekday_agg_full (t : table) :
  (forall n, 0 <= n < 7 -> weekday_group t n <> []) ->
  weekday_agg t
  = map (fun n => mkWeekday n (weekday_label n)
                    (mean (map price (weekday_group t n)))
                    (mean (map volume (weekday_group t n))))
        [0; 1; 2; 3; 4; 5; 6].
Proof.
  intros Hfull. unfold weekday_agg. cbn [flat_map map].
  repeat match goal with
  | |- context [match weekday_group t ?n with _ => _ end] =>
      let E := fresh "E" in
      destruct (weekday_group t n) eqn:E;
        [exfalso; apply (Hfull n); [lia|exact E]|]
  end.
  reflexivity.
Qed.



Lemma one_week_is_a_week :
  forall k, 0 <= k < 7 -> exists r, In r Samples.one_week /\ date r = 5 + k.
Proof.
  intros k Hk.
  assert (Hcases : k = 0 \/ k = 1 \/ k = 2 \/ k = 3 \/ k = 4 \/ k = 5 \/ k = 6) by lia.
  assert (Hex : existsb (fun r => date r =? 5 + k) Samples.one_week = true)
    by (repeat (destruct Hcases as [-> | Hcases]); try subst k; reflexivity).
  apply existsb_exists in Hex. destruct Hex as (r & Hr & Hd).
  exists r. split; [exact Hr|]. now apply Z.eqb_eq.
Qed.


(** On [one_week] Sunday and Wednesday tie for the highest average volume
    and Thursday and Friday for the lowest: the report names Sunday and
    Thursday, the earlier rows. *)
Lemma one_week_ties :
  map wd_avg_volume (weekday_agg Samples.one_week)
  = [Some 9%Q; Some 4%Q; Some 3%Q; Some 9%Q; Some 2%Q; Some 2%Q; Some 5%Q]
  /\ highest_volume_weekday (weekday_agg Samples.one_week) = Some "Sunday"%string
  /\ lowest_volume_weekday (weekday_agg Samples.one_week) = Some "Thursday"%string.
Proof.
  repeat split.
Qed.

End WeekdayFacts.

(** * Further properties of the Collector *)

Section FetchCoverage.
Import Collector.

Lemma sleeps_app tr1 tr2 : sleeps (tr1 ++ tr2) = sleeps tr1 ++ sleeps tr2.
Proof.
  induction tr1 as [|[c d|s|l m] tr1 IH]; simpl; congruence.
Qed.

Lemma fetch_attempts_bounds answer coin days attempts :
  (requests_for coin (snd (fetch_attempts answer coin days attempts))
     <= List.length attempts)%nat
  /\ Forall (eq retry_delay) (sleeps (snd (fetch_attempts answer coin days attempts)))
  /\ (List.length (sleeps (snd (fetch_attempts answer coin days attempts)))
        <= requests_for coin (snd (fetch_attempts answer coin days attempts)))%nat.
Proof.
  induction attempts as [|a rest IH]; cbn [fetch_attempts].
  - cbn. repeat split; [lia|constructor|lia].
  - destruct (answer a) as [status body|].
    + destruct (raise_for_status status); [destruct (status =? 429)|].
      * destruct (fetch_attempts answer coin days rest) as [r tr]. cbn [snd] in *.
        rewrite requests_for_cons_get, requests_for_cons_log, requests_for_cons_sleep.
        cbn [sleeps List.length]. destruct IH as (H1 & H2 & H3).
        repeat split; [lia|now constructor|lia].
      * cbn [snd]. rewrite requests_for_cons_get. cbn.
        repeat split; [lia|constructor|lia].
      * cbn [snd]. rewrite requests_for_cons_get. cbn.
        repeat split; [lia|constructor|lia].
    + destruct (Nat.eqb a (max_retries - 1)).
      * cbn [snd]. rewrite requests_for_cons_get. cbn.
        repeat split; [lia|constructor|lia].
      * destruct (fetch_attempts answer coin days rest) as [r tr]. cbn [snd] in *.
        rewrite requests_for_cons_get, requests_for_cons_log, requests_for_cons_sleep.
        cbn [sleeps List.length]. destruct IH as (H1 & H2 & H3).
        repeat split; [lia|now constructor|lia].
Qed.

(** X1: whatever the remote API does, a fetch sends at least one and at
    most [max_retries] = 3 requests, every pause it takes is the fixed
    [retry_delay] = 5 seconds, and it pauses at most once per request. *)
Theorem fetch_is_bounded (w : env) (coin : string) (days : Z) :
  (1 <= requests_for coin (snd (fetch_crypto_data w coin days)) <= 3)%nat
  /\ Forall (eq 5) (sleeps (snd (fetch_crypto_data w coin days)))
  /\ (List.length (sleeps (snd (fetch_crypto_data w coin days)))
        <= requests_for coin (snd (fetch_crypto_data w coin days)))%nat.
Proof.
  pose proof (fetch_makes_a_request w coin days) as Hone.
  unfold fetch_crypto_data in *.
  destruct (fetch_attempts_bounds (api w coin) coin days (seq 0 max_retries))
    as (H1 & H2 & H3).
  rewrite length_seq in H1. unfold max_retries in *.
  repeat split; try assumption; lia.
Qed.

Ltac fetch_trace :=
  cbn [raise_for_status Z.leb Z.ltb Z.eqb Z.compare Pos.compare Pos.compare_cont
         Pos.eqb andb max_retries Nat.eqb Nat.sub fst snd];
  repeat first [ rewrite requests_for_cons_get
               | rewrite requests_for_cons_log
               | rewrite requests_for_cons_sleep
               | rewrite requests_for_nil ].

Lemma retryable_cases r :
  retryable r = true ->
  (exists body, r = Http 429 body) \/ r = ConnectionFailure.
Proof.
  destruct r as [status body|]; cbn; intros H; [left|now right].
  apply Z.eqb_eq in H. subst. now exists body.
Qed.

(** X2: when the attempt number [k] (of 0, 1, 2) is answered with a status
    that is no error and every attempt before it met a 429 or a failure
    below HTTP, the fetch returns the decoded body of that answer, after
    [k + 1] requests and [k] pauses of 5 seconds. *)
Theorem fetch_returns_first_success
  (w : env) (coin : string) (days : Z) (k : nat) (status : Z)
  (body : option market_chart)
  (Hk : (k < max_retries)%nat)
  (Hanswer : api w coin k = Http status body)
  (Hok : raise_for_status status = false)
  (Hbefore : forall n, (n < k)%nat -> retryable (api w coin n) = true) :
  fst (fetch_crypto_data w coin days) = Return body
  /\ requests_for coin (snd (fetch_crypto_data w coin days)) = S k
  /\ sleeps (snd (fetch_crypto_data w coin days)) = repeat 5 k.
Proof.
  unfold max_retries in Hk. unfold fetch_crypto_data.
  destruct k as [|[|[|k]]]; [| | |lia].
  - cbn [seq max_retries fetch_attempts]. rewrite Hanswer, Hok. cbn [fst snd].
    rewrite requests_for_cons_get. now repeat split.
  - destruct (retryable_cases _ (Hbefore 0%nat ltac:(lia))) as [[b0 E0]|E0];
      cbn [seq max_retries fetch_attempts]; rewrite E0, Hanswer, Hok;
      fetch_trace; now repeat split.
  - destruct (retryable_cases _ (Hbefore 0%nat ltac:(lia))) as [[b0 E0]|E0];
    destruct (retryable_cases _ (Hbefore 1%nat ltac:(lia))) as [[b1 E1]|E1];
      cbn [seq max_retries fetch_attempts]; rewrite E0, E1, Hanswer, Hok;
      fetch_trace; now repeat split.
Qed.

Lemma fetch_returns_first_success_witness :
  (1 < max_retries)%nat
  /\ api Samples.slow_start "bitcoin" 1%nat = Http 200 (Some Samples.two_days)
  /\ raise_for_status 200 = false
  /\ (forall n, (n < 1)%nat -> retryable (api Samples.slow_start "bitcoin" n) = true)
  /\ fst (fetch_crypto_data Samples.slow_start "bitcoin" 30) = Return (Some Samples.two_days)
  /\ requests_for "bitcoin" (snd (fetch_crypto_data Samples.slow_start "bitcoin" 30)) = 2%nat
  /\ sleeps (snd (fetch_crypto_data Samples.slow_start "bitcoin" 30)) = repeat 5 1.
Proof.
  assert (H1 : (1 < max_retries)%nat) by (unfold max_retries; lia).
  assert (H2 : api Samples.slow_start "bitcoin" 1%nat = Http 200 (Some Samples.two_days))
    by reflexivity.
  assert (H3 : raise_for_status 200 = false) by reflexivity.
  assert (H4 : forall n, (n < 1)%nat ->
                 retryable (api Samples.slow_start "bitcoin" n) = true).
  { intros n Hn. assert (E : n = 0%nat) by lia. subst n. reflexivity. }
  split; [exact H1|]. split; [exact H2|]. split; [exact H3|]. split; [exact H4|].
  exact (fetch_returns_first_success Samples.slow_start "bitcoin" 30 1 200
           (Some Samples.two_days) H1 H2 H3 H4).
Defined.

Ltac case_status s :=
  let N := fresh "N" in
  destruct (Z.eqb_spec s 429) as [->|N];
  [ change (raise_for_status 429) with true
  | destruct (raise_for_status s) ].

(** X3: a fetch ends without data exactly when the first attempt that is
    not retried is answered with a status that is no error and a body that
    is JSON null, or when all three attempts are retried and the third was
    answered 429.  So two connection failures followed by a 429 end in
    [None], not in an exception. *)
Theorem fetch_returns_none_iff (w : env) (coin : string) (days : Z) :
  fst (fetch_crypto_data w coin days) = Return None
  <-> null_answer (api w coin 0%nat) = true
      \/ (retryable (api w coin 0%nat) = true
          /\ null_answer (api w coin 1%nat) = true)
      \/ (retryable (api w coin 0%nat) = true
          /\ retryable (api w coin 1%nat) = true
          /\ (null_answer (api w coin 2%nat) = true
              \/ exists body, api w coin 2%nat = Http 429 body)).
Proof.
  unfold fetch_crypto_data. cbn [seq max_retries fetch_attempts].
  destruct (api w coin 0%nat) as [s0 [b0|]|];
    destruct (api w coin 1%nat) as [s1 [b1|]|];
    destruct (api w coin 2%nat) as [s2 [b2|]|];
    cbn [retryable null_answer];
    try case_status s0; try case_status s1; try case_status s2;
    cbn [max_retries Nat.eqb Nat.sub fst snd negb];
    (split;
     [ intros H; try discriminate H; intuition eauto
     | intros H; try reflexivity;
       repeat match goal with
              | H : _ \/ _ |- _ => destruct H
              | H : _ /\ _ |- _ => destruct H
              | H : exists _, _ |- _ => destruct H
              end; try discriminate; try congruence ]).
Qed.

End FetchCoverage.

Section StoreCoverage.
Import Collector.

Lemma zip3_length {A B C} (la : list A) : forall (lb : list B) (lc : list C),
  List.length (zip3 la lb lc)
  = Nat.min (List.length la) (Nat.min (List.length lb) (List.length lc)).
Proof.
  induction la as [|a la IH]; intros [|b lb] [|c lc]; cbn [zip3 List.length];
    try reflexivity.
  rewrite IH. reflexivity.
Qed.

Lemma zip3_nth_error {A B C} (la : list A) : forall (lb : list B) (lc : list C) i a b c,
  nth_error la i = Some a -> nth_error lb i = Some b -> nth_error lc i = Some c ->
  nth_error (zip3 la lb lc) i = Some (a, b, c).
Proof.
  induction la as [|a0 la IH]; intros [|b0 lb] [|c0 lc] [|i] a b c Ha Hb Hc;
    cbn [zip3 nth_error] in *; try discriminate.
  - congruence.
  - now apply IH.
Qed.

(** X4: the rows written from a payload are aligned by position: there are
    as many as the shortest of the three series has entries, and row [i]
    takes its date and price from entry [i] of [prices] and its volume and
    market cap from the values of entry [i] of the other two series, whose
    timestamps are not looked at. *)
Theorem rows_of_chart_by_position (offset : Z -> Z) (data : market_chart) :
  List.length (rows_of_chart offset data)
  = Nat.min (List.length (prices data))
            (Nat.min (List.length (total_volumes data)) (List.length (market_caps data)))
  /\ forall i p v m,
       nth_error (prices data) i = Some p ->
       nth_error (total_volumes data) i = Some v ->
       nth_error (market_caps data) i = Some m ->
       nth_error (rows_of_chart offset data) i
       = Some (mkRow (date_of_timestamp offset (fst p)) (snd p) (snd v) (snd m)).
Proof.
  unfold rows_of_chart. split.
  - rewrite length_map. apply zip3_length.
  - intros i p v m Hp Hv Hm. rewrite nth_error_map.
    now rewrite (zip3_nth_error _ _ _ i p v m Hp Hv Hm).
Qed.

Lemma insert_or_replace_dates t r d :
  In d (map date (insert_or_replace t r)) <-> In d (map date t) \/ d = date r.
Proof.
  unfold insert_or_replace. rewrite map_app, in_app_iff. cbn [map In]. split.
  - intros [H|[H|[]]]; [left|now right].
    apply in_map_iff in H. destruct H as (x & <- & Hx).
    apply filter_In in Hx. apply in_map. tauto.
  - intros [H| ->]; [|right; now left].
    destruct (Z.eq_dec d (date r)) as [->|Hne]; [right; now left|left].
    apply in_map_iff in H. destruct H as (x & <- & Hx).
    apply in_map. apply filter_In. split; [exact Hx|].
    apply negb_true_iff. now apply Z.eqb_neq.
Qed.

Lemma insert_or_replace_nodup t r :
  NoDup (map date t) -> NoDup (map date (insert_or_replace t r)).
Proof.
  intros Hnd. unfold insert_or_replace. rewrite map_app. apply NoDup_app.
  - now apply NoDup_map_filter.
  - cbn. repeat constructor. intros [].
  - intros d Hd [<-|[]].
    apply in_map_iff in Hd. destruct Hd as (x & E & Hx).
    apply filter_In in Hx. destruct Hx as [_ Hx].
    apply negb_true_iff in Hx. apply Z.eqb_neq in Hx. congruence.
Qed.

Lemma store_rows_nodup rows : forall t,
  NoDup (map date t) -> NoDup (map date (store_rows t rows)).
Proof.
  induction rows as [|r rows IH]; intros t Hnd; [exact Hnd|].
  rewrite store_rows_cons. apply IH. now apply insert_or_replace_nodup.
Qed.

Lemma store_rows_dates rows : forall t d,
  In d (map date (store_rows t rows)) <-> In d (map date t) \/ In d (map date rows).
Proof.
  induction rows as [|r rows IH]; intros t d.
  - cbn. tauto.
  - rewrite store_rows_cons, IH, insert_or_replace_dates. cbn [map In].
    intuition congruence.
Qed.

(** X5: a successful store keeps the primary key and deletes no date: if
    the table had one row per date it still has, and its dates afterwards
    are the dates it had together with the dates of the payload. *)
Theorem store_data_keeps_key
  (w : env) (db db1 : database) (coin : string) (data : market_chart)
  (tr : list event) (t : table)
  (Hstore : store_data w db coin data = (Return db1, tr))
  (Htable : get_table db coin = Some t)
  (Hkey : NoDup (map date t)) :
  exists t1,
    get_table db1 coin = Some t1
    /\ NoDup (map date t1)
    /\ forall d, In d (map date t1)
                 <-> In d (map date t)
                     \/ In d (map date (rows_of_chart (utc_offset w) data)).
Proof.
  apply store_data_return in Hstore. destruct Hstore as (t' & Ht' & _ & -> & _).
  rewrite Htable in Ht'. injection Ht' as <-.
  exists (store_rows t (rows_of_chart (utc_offset w) data)).
  split; [now apply get_set_table with t|].
  split; [now apply store_rows_nodup|]. intros d. apply store_rows_dates.
Qed.

Lemma store_data_keeps_key_witness :
  store_data Samples.healthy Samples.stored_once "bitcoin" Samples.two_days_again
    = (Return Samples.stored_twice, [Log INFO (StoredOk "bitcoin")])
  /\ get_table Samples.stored_once "bitcoin" = Some (bitcoin Samples.stored_once)
  /\ NoDup (map date (bitcoin Samples.stored_once))
  /\ exists t1,
       get_table Samples.stored_twice "bitcoin" = Some t1
       /\ NoDup (map date t1)
       /\ forall d, In d (map date t1)
                    <-> In d (map date (bitcoin Samples.stored_once))
                        \/ In d (map date (rows_of_chart (utc_offset Samples.healthy)
                                             Samples.two_days_again)).
Proof.
  assert (H1 : store_data Samples.healthy Samples.stored_once "bitcoin"
                 Samples.two_days_again
               = (Return Samples.stored_twice, [Log INFO (StoredOk "bitcoin")]))
    by reflexivity.
  assert (H2 : get_table Samples.stored_once "bitcoin"
               = Some (bitcoin Samples.stored_once)) by reflexivity.
  assert (H3 : NoDup (map date (bitcoin Samples.stored_once))).
  { simpl. repeat constructor; simpl; intuition lia. }
  split; [exact H1|]. split; [exact H2|]. split; [exact H3|].
  exact (store_data_keeps_key Samples.healthy Samples.stored_once Samples.stored_twice
           "bitcoin" Samples.two_days_again _ _ H1 H2 H3).
Defined.

Lemma get_set_table_other db coin other t :
  String.eqb other coin = false ->
  get_table (set_table db coin t) other = get_table db other.
Proof.
  intros Hne. unfold get_table, set_table.
  destruct (String.eqb_spec coin "bitcoin") as [->|Hb].
  - rewrite Hne. reflexivity.
  - destruct (String.eqb_spec coin "ethereum") as [->|He]; [|reflexivity].
    rewrite Hne. now destruct (String.eqb other "bitcoin").
Qed.

(** X6: a successful store touches nothing but the payload's dates in the
    table of its coin: every other table is as it was, and the rows whose
    date the payload does not mention are the same rows in the same
    order. *)
Theorem store_data_touches_only_payload_dates
  (w : env) (db db1 : database) (coin : string) (data : market_chart)
  (tr : list event)
  (Hstore : store_data w db coin data = (Return db1, tr)) :
  (forall other, String.eqb other coin = false ->
     get_table db1 other = get_table db other)
  /\ exists t t1,
       get_table db coin = Some t
       /\ get_table db1 coin = Some t1
       /\ filter (fun x => negb (mem_date (date x) (rows_of_chart (utc_offset w) data))) t1
          = filter (fun x => negb (mem_date (date x) (rows_of_chart (utc_offset w) data))) t.
Proof.
  apply store_data_return in Hstore. destruct Hstore as (t & Ht & _ & -> & _).
  set (rows := rows_of_chart (utc_offset w) data).
  split.
  - intros other Hne. now apply get_set_table_other.
  - exists t, (store_rows t rows). split; [exact Ht|].
    split; [now apply get_set_table with t|].
    rewrite (store_rows_spec rows t), filter_app, filter_filter_and.
    rewrite (filter_none _ (store_rows [] rows)).
    + rewrite app_nil_r. apply filter_ext. intros x.
      now destruct (mem_date (date x) rows).
    + intros x Hx. apply store_rows_in in Hx. destruct Hx as [[]|Hx].
      now rewrite (mem_date_in x rows Hx).
Qed.

Lemma store_data_touches_only_payload_dates_witness :
  store_data Samples.healthy Samples.stored_once "ethereum" Samples.two_days_again
    = (Return (mkDb (bitcoin Samples.stored_once) (bitcoin Samples.stored_twice)),
       [Log INFO (StoredOk "ethereum")])
  /\ (forall other, String.eqb other "ethereum" = false ->
        get_table (mkDb (bitcoin Samples.stored_once) (bitcoin Samples.stored_twice)) other
        = get_table Samples.stored_once other)
  /\ exists t t1,
       get_table Samples.stored_once "ethereum" = Some t
       /\ get_table (mkDb (bitcoin Samples.stored_once) (bitcoin Samples.stored_twice))
            "ethereum" = Some t1
       /\ filter (fun x => negb (mem_date (date x)
                    (rows_of_chart (utc_offset Samples.healthy) Samples.two_days_again))) t1
          = filter (fun x => negb (mem_date (date x)
                    (rows_of_chart (utc_offset Samples.healthy) Samples.two_days_again))) t.
Proof.
  assert (H : store_data Samples.healthy Samples.stored_once "ethereum"
                Samples.two_days_again
              = (Return (mkDb (bitcoin Samples.stored_once) (bitcoin Samples.stored_twice)),
                 [Log INFO (StoredOk "ethereum")])) by reflexivity.
  split; [exact H|].
  exact (store_data_touches_only_payload_dates Samples.healthy Samples.stored_once _
           "ethereum" Samples.two_days_again _ H).
Defined.

(** X7: for instants [datetime] can hold, the date key is the local
    calendar day of the instant: it covers the 24 hours from local midnight
    on under the offset in force, and two instants a whole number of days
    apart at which the same offset is in force are keyed that many dates
    apart. *)
Theorem date_of_timestamp_day (offset : Z -> Z) (ts k : Z)
  (Hts : representable offset ts = true)
  (Hts' : representable offset (ts + k * 86400000) = true)
  (Hsame : offset (ts + k * 86400000) = offset ts) :
  86400000 * date_of_timestamp offset ts <= ts + offset ts * 1000
    < 86400000 * (date_of_timestamp offset ts + 1)
  /\ date_of_timestamp offset (ts + k * 86400000) = date_of_timestamp offset ts + k.
Proof.
  unfold date_of_timestamp. rewrite Hsame. split.
  - Z.to_euclidean_division_equations. lia.
  - replace (ts + k * 86400000 + offset ts * 1000)
      with (ts + offset ts * 1000 + k * 86400000) by lia.
    apply Z.div_add. lia.
Qed.

Lemma date_of_timestamp_day_witness :
  representable Samples.new_york 1730696400000 = true
  /\ representable Samples.new_york (1730696400000 + 2 * 86400000) = true
  /\ Samples.new_york (1730696400000 + 2 * 86400000) = Samples.new_york 1730696400000
  /\ 86400000 * date_of_timestamp Samples.new_york 1730696400000
       <= 1730696400000 + Samples.new_york 1730696400000 * 1000
       < 86400000 * (date_of_timestamp Samples.new_york 1730696400000 + 1)
  /\ date_of_timestamp Samples.new_york (1730696400000 + 2 * 86400000)
     = date_of_timestamp Samples.new_york 1730696400000 + 2.
Proof.
  assert (H1 : representable Samples.new_york 1730696400000 = true) by reflexivity.
  assert (H2 : representable Samples.new_york (1730696400000 + 2 * 86400000) = true)
    by reflexivity.
  assert (H3 : Samples.new_york (1730696400000 + 2 * 86400000)
               = Samples.new_york 1730696400000) by reflexivity.
  split; [exact H1|]. split; [exact H2|]. split; [exact H3|].
  exact (date_of_timestamp_day Samples.new_york 1730696400000 2 H1 H2 H3).
Defined.

(** Across the end of daylight saving time the rule fails: 2024-11-03
    00:30 and the instant 24 hours later, 23:30 of the same local day in
    New York, get the same date, and a payload holding both leaves one row,
    that of the later one. *)
Lemma date_of_timestamp_across_dst :
  date_of_timestamp Samples.new_york 1730608200000 = 20030
  /\ date_of_timestamp Samples.new_york (1730608200000 + 86400000) = 20030
  /\ store_rows [] (rows_of_chart Samples.new_york
                       (Samples.chart [(1730608200000, 100%Q);
                                       (1730608200000 + 86400000, 110%Q)]))
     = [Samples.day 20030 110%Q].
Proof.
  repeat split.
Qed.

(** An instant outside the years [datetime] holds: the store raises
    [ValueError], logs nothing itself and writes nothing; [main] logs it
    and raises it, and the next coin is not asked for. *)
Lemma store_data_unrepresentable_date :
  store_data Samples.far_future_api Samples.stored_once "bitcoin" Samples.far_future
  = (Raise ValueError, [])
  /\ fst (fst (main Samples.far_future_api Samples.stored_once)) = Raise ValueError
  /\ snd (fst (main Samples.far_future_api Samples.stored_once)) = Samples.stored_once
  /\ In (Log ERROR (ErrorInMain ValueError))
        (snd (main Samples.far_future_api Samples.stored_once))
  /\ requests_for "ethereum" (snd (main Samples.far_future_api Samples.stored_once))
     = 0%nat.
Proof.
  repeat split. cbn. tauto.
Qed.

End StoreCoverage.

Section JobCoverage.
Import Collector.

Ltac run_job :=
  unfold main, coins; cbn [process_coins];
  unfold store_data;
  cbn [get_table set_table String.eqb Ascii.eqb Bool.eqb bitcoin ethereum].

(** X8: when the fetch of each coin returns data, SQLite does not fail and
    every instant of the two payloads is one [datetime] can hold, [main]
    returns, logs the completion, and leaves in each table the payload of
    its coin upserted into what the table held, each row under the local
    date of its instant. *)
Theorem main_stores_both_coins
  (w : env) (db : database) (btc eth : market_chart)
  (Hbtc : fst (fetch_crypto_data w "bitcoin" days) = Return (Some btc))
  (Heth : fst (fetch_crypto_data w "ethereum" days) = Return (Some eth))
  (Hsb : sqlite_fails w "bitcoin" = false)
  (Hse : sqlite_fails w "ethereum" = false)
  (Hrb : forallb (representable (utc_offset w)) (chart_timestamps btc) = true)
  (Hre : forallb (representable (utc_offset w)) (chart_timestamps eth) = true) :
  fst (fst (main w db)) = Return tt
  /\ snd (fst (main w db))
     = mkDb (store_rows (bitcoin db) (rows_of_chart (utc_offset w) btc))
            (store_rows (ethereum db) (rows_of_chart (utc_offset w) eth))
  /\ In (Log INFO CollectionCompleted) (snd (main w db)).
Proof.
  run_job.
  destruct (fetch_crypto_data w "bitcoin" days) as [rb tb].
  destruct (fetch_crypto_data w "ethereum" days) as [re te].
  cbn [fst] in Hbtc, Heth. subst rb re. rewrite Hsb, Hse, Hrb, Hre.
  cbn [fst snd get_table set_table String.eqb Ascii.eqb Bool.eqb bitcoin ethereum].
  repeat split.
  right. apply in_or_app. right. now left.
Qed.

Lemma main_stores_both_coins_witness :
  fst (fetch_crypto_data Samples.slow_start "bitcoin" days) = Return (Some Samples.two_days)
  /\ fst (fetch_crypto_data Samples.slow_start "ethereum" days)
     = Return (Some Samples.two_days)
  /\ sqlite_fails Samples.slow_start "bitcoin" = false
  /\ sqlite_fails Samples.slow_start "ethereum" = false
  /\ forallb (representable (utc_offset Samples.slow_start))
       (chart_timestamps Samples.two_days) = true
  /\ forallb (representable (utc_offset Samples.slow_start))
       (chart_timestamps Samples.two_days) = true
  /\ fst (fst (main Samples.slow_start Samples.empty_db)) = Return tt
  /\ snd (fst (main Samples.slow_start Samples.empty_db))
     = mkDb (store_rows (bitcoin Samples.empty_db)
               (rows_of_chart (utc_offset Samples.slow_start) Samples.two_days))
            (store_rows (ethereum Samples.empty_db)
               (rows_of_chart (utc_offset Samples.slow_start) Samples.two_days))
  /\ In (Log INFO CollectionCompleted) (snd (main Samples.slow_start Samples.empty_db)).
Proof.
  assert (H1 : fst (fetch_crypto_data Samples.slow_start "bitcoin" days)
               = Return (Some Samples.two_days)) by reflexivity.
  assert (H2 : fst (fetch_crypto_data Samples.slow_start "ethereum" days)
               = Return (Some Samples.two_days)) by reflexivity.
  assert (H3 : sqlite_fails Samples.slow_start "bitcoin" = false) by reflexivity.
  assert (H4 : sqlite_fails Samples.slow_start "ethereum" = false) by reflexivity.
  assert (H5 : forallb (representable (utc_offset Samples.slow_start))
                 (chart_timestamps Samples.two_days) = true) by reflexivity.
  split; [exact H1|]. split; [exact H2|]. split; [exact H3|]. split; [exact H4|].
  split; [exact H5|]. split; [exact H5|].
  exact (main_stores_both_coins Samples.slow_start Samples.empty_db
           Samples.two_days Samples.two_days H1 H2 H3 H4 H5 H5).
Defined.

(** X9: the job is idempotent in a fixed world: run again on the database
    a run left behind, with the API and SQLite behaving as before, [main]
    ends the same way, logs the same events and leaves the database as it
    found it. *)
Theorem main_rerun_changes_nothing (w : env) (db : database) :
  main w (snd (fst (main w db))) = main w db.
Proof.
  destruct db as [b e]. run_job.
  destruct (fetch_crypto_data w "bitcoin" days) as [[[d1|]|e1] tr1];
    destruct (fetch_crypto_data w "ethereum" days) as [[[d2|]|e2] tr2];
    destruct (sqlite_fails w "bitcoin");
    destruct (sqlite_fails w "ethereum");
    repeat match goal with
           | |- context [forallb ?f ?l] => destruct (forallb f l)
           end;
    cbn [fst snd get_table set_table String.eqb Ascii.eqb Bool.eqb bitcoin ethereum];
    rewrite ?store_rows_idempotent; reflexivity.
Qed.

End JobCoverage.

(** * Further properties of the Analyzer *)

Section InterpolationCoverage.
Import Analyzer.

Lemma enumerate_Forall {A B} (P : B -> Prop) (f : nat * A -> B) (l : list A) : forall i,
  (forall n x, nth_error l n = Some x -> P (f ((i + n)%nat, x))) ->
  Forall P (map f (enumerate i l)).
Proof.
  induction l as [|x l IH]; intros i H; cbn [enumerate map]; constructor.
  - specialize (H 0%nat x eq_refl). now rewrite Nat.add_0_r in H.
  - apply IH. intros n y Hn. specialize (H (S n) y Hn).
    now replace (S i + n)%nat with (i + S n)%nat by lia.
Qed.

Lemma enumerate_map_id {A} (f : nat * A -> A) (l : list A) : forall i,
  (forall n x, nth_error l n = Some x -> f ((i + n)%nat, x) = x) ->
  map f (enumerate i l) = l.
Proof.
  induction l as [|x l IH]; intros i H; cbn [enumerate map]; [reflexivity|].
  f_equal.
  - specialize (H 0%nat x eq_refl). now rewrite Nat.add_0_r in H.
  - apply IH. intros n y Hn. specialize (H (S n) y Hn).
    now replace (S i + n)%nat with (i + S n)%nat by lia.
Qed.

Lemma enumerate_nth_error {A B} (f : nat * A -> B) (l : list A) : forall i n,
  nth_error (map f (enumerate i l)) n
  = option_map (fun x => f ((i + n)%nat, x)) (nth_error l n).
Proof.
  induction l as [|x l IH]; intros i [|n]; cbn [enumerate map nth_error option_map];
    try reflexivity.
  - now rewrite Nat.add_0_r.
  - rewrite IH. now replace (S i + n)%nat with (i + S n)%nat by lia.
Qed.

Lemma interpolate_col_nth col n :
  nth_error (interpolate_col col) n = option_map (fill col n) (nth_error col n).
Proof.
  unfold interpolate_col.
  rewrite (enumerate_nth_error (fun p => let '(i, y) := p in fill col i y) col 0 n).
  reflexivity.
Qed.

Lemma last_valid_all_none l : forall i, Forall (fun y => y = None) l -> last_valid i l = None.
Proof.
  induction l as [|y l IH]; intros i H; cbn [last_valid]; [reflexivity|].
  inversion H as [|? ? Hy Hl]; subst. now rewrite IH.
Qed.

Lemma first_valid_all_none l : forall i, Forall (fun y => y = None) l -> first_valid i l = None.
Proof.
  induction l as [|y l IH]; intros i H; cbn [first_valid]; [reflexivity|].
  inversion H as [|? ? Hy Hl]; subst. now apply IH.
Qed.

Lemma last_valid_found l : forall i k v,
  nth_error l k = Some (Some v) -> last_valid i l <> None.
Proof.
  induction l as [|y l IH]; intros i [|k] v H; cbn [nth_error last_valid] in *;
    try discriminate.
  - injection H as ->. now destruct (last_valid (S i) l).
  - specialize (IH (S i) k v H). now destruct (last_valid (S i) l).
Qed.

Lemma first_valid_found l i k v :
  nth_error l k = Some (Some v) -> first_valid i l <> None.
Proof.
  intros H E. exact (first_valid_none l i k v E H).
Qed.

Lemma Forall_firstn {A} (P : A -> Prop) (l : list A) : forall n,
  Forall P l -> Forall P (firstn n l).
Proof.
  induction l as [|x l IH]; intros [|n] H; cbn [firstn]; try constructor.
  - now inversion H.
  - apply IH. now inversion H.
Qed.

Lemma Forall_skipn {A} (P : A -> Prop) (l : list A) : forall n,
  Forall P l -> Forall P (skipn n l).
Proof.
  induction l as [|x l IH]; intros [|n] H; cbn [skipn]; try assumption.
  apply IH. now inversion H.
Qed.

Lemma np_interp_all_none (col : list float) x :
  Forall (fun y => y = None) col -> np_interp col x = None.
Proof.
  intros H. unfold np_interp.
  rewrite (last_valid_all_none _ _ (Forall_firstn _ _ x H)).
  now rewrite (first_valid_all_none _ _ (Forall_skipn _ _ (S x) H)).
Qed.

(** A gap is filled as soon as the column has a valid entry anywhere. *)
Lemma np_interp_fills (col : list float) x k v :
  nth_error col x = Some None ->
  nth_error col k = Some (Some v) ->
  np_interp col x <> None.
Proof.
  intros Hx Hk. unfold np_interp.
  assert (Hne : k <> x) by (intros ->; congruence).
  destruct (Nat.lt_ge_cases k x) as [Hlt|Hge].
  - assert (H : last_valid 0 (firstn x col) <> None).
    { apply last_valid_found with k v. rewrite nth_error_firstn.
      destruct (Nat.ltb_spec k x); [exact Hk|lia]. }
    destruct (last_valid 0 (firstn x col)) as [[xa ya]|]; [|contradiction].
    destruct (first_valid (S x) (skipn (S x) col)) as [[xb yb]|]; cbn zeta; discriminate.
  - assert (H : first_valid (S x) (skipn (S x) col) <> None).
    { apply first_valid_found with (k - S x)%nat v. rewrite nth_error_skipn.
      now replace (S x + (k - S x))%nat with k by lia. }
    destruct (first_valid (S x) (skipn (S x) col)) as [[xb yb]|]; [|contradiction].
    destruct (last_valid 0 (firstn x col)) as [[xa ya]|]; cbn zeta; discriminate.
Qed.

Lemma all_none_or_valid (col : list float) :
  Forall (fun y => y = None) col \/ exists k v, nth_error col k = Some (Some v).
Proof.
  induction col as [|[v|] col IH].
  - left. constructor.
  - right. now exists 0%nat, v.
  - destruct IH as [H|(k & v & H)]; [left; now constructor|right].
    now exists (S k), v.
Qed.

Lemma interpolate_col_all_none (col : list float) :
  Forall (fun y => y = None) col -> interpolate_col col = col.
Proof.
  intros Hnone. unfold interpolate_col. apply enumerate_map_id.
  intros n y Hn. cbn [Nat.add].
  assert (Hy : y = None).
  { apply nth_error_In in Hn. rewrite Forall_forall in Hnone. now apply Hnone. }
  subst y. cbn [fill]. now apply np_interp_all_none.
Qed.

Lemma interpolate_col_valid (col : list float) k v :
  nth_error col k = Some (Some v) ->
  Forall (fun y => is_null y = false) (interpolate_col col).
Proof.
  intros Hk. unfold interpolate_col. apply enumerate_Forall.
  intros n y Hn. cbn [Nat.add].
  destruct y as [q|]; cbn [fill]; [reflexivity|].
  pose proof (np_interp_fills col n k v Hn Hk) as Hfill.
  now destruct (np_interp col n).
Qed.

(** A column that is not all NULL has a valid entry. *)
Lemma all_null_false (col : list float) :
  all_null col = false -> exists k v, nth_error col k = Some (Some v).
Proof.
  intros H. destruct (all_none_or_valid col) as [Hnone|Hex]; [|exact Hex].
  assert (E : all_null col = true).
  { unfold all_null. apply forallb_forall. intros y Hy.
    rewrite Forall_forall in Hnone. now rewrite (Hnone y Hy). }
  congruence.
Qed.

Lemma all_null_in (f : row -> option Q) (df : list row) r :
  In r df -> is_null (f r) = false -> all_null (map f df) = false.
Proof.
  intros Hr Hf. destruct (all_null (map f df)) eqn:E; [|reflexivity].
  unfold all_null in E. rewrite forallb_forall in E.
  rewrite (E (f r)) in Hf; [discriminate Hf|]. now apply in_map.
Qed.

Lemma Forall_repeat_none k : Forall (fun y : float => y = None) (repeat None k).
Proof.
  induction k; cbn; constructor; auto.
Qed.

Lemma firstn_repeat_app {A} (x : A) (rest : list A) : forall j k,
  (j <= k)%nat -> firstn j (repeat x k ++ rest) = repeat x j.
Proof.
  induction j as [|j IH]; intros [|k] H; cbn; try reflexivity; try lia.
  f_equal. apply IH. lia.
Qed.

Lemma skipn_repeat_app {A} (x : A) (rest : list A) : forall m k,
  (m <= k)%nat -> skipn m (repeat x k ++ rest) = repeat x (k - m) ++ rest.
Proof.
  induction m as [|m IH]; intros [|k] H; cbn; try reflexivity; try lia.
  apply IH. lia.
Qed.

Lemma firstn_gap (pre rest : list float) a j k :
  (j <= k)%nat ->
  firstn (List.length pre + S j) (pre ++ Some a :: repeat None k ++ rest)
  = pre ++ Some a :: repeat None j.
Proof.
  intros H. induction pre as [|y pre IH]; cbn [List.length Nat.add app firstn].
  - f_equal. now apply firstn_repeat_app.
  - f_equal. exact IH.
Qed.

Lemma skipn_gap (pre rest : list float) a m k :
  (m <= k)%nat ->
  skipn (List.length pre + S m) (pre ++ Some a :: repeat None k ++ rest)
  = repeat None (k - m) ++ rest.
Proof.
  intros H. induction pre as [|y pre IH]; cbn [List.length Nat.add app skipn].
  - now apply skipn_repeat_app.
  - exact IH.
Qed.

Lemma nth_error_gap (pre rest : list float) a j k :
  (j < k)%nat ->
  nth_error (pre ++ Some a :: repeat None k ++ rest) (List.length pre + S j) = Some None.
Proof.
  intros H. induction pre as [|y pre IH]; cbn [List.length Nat.add app nth_error].
  - rewrite nth_error_app1 by (rewrite repeat_length; exact H).
    now apply nth_error_repeat.
  - exact IH.
Qed.

Lemma last_valid_gap (pre : list float) a j : forall i,
  last_valid i (pre ++ Some a :: repeat None j) = Some ((i + List.length pre)%nat, a).
Proof.
  induction pre as [|y pre IH]; intros i; cbn [app last_valid List.length].
  - rewrite (last_valid_all_none _ _ (Forall_repeat_none j)). now rewrite Nat.add_0_r.
  - rewrite IH. do 2 f_equal. lia.
Qed.

Lemma first_valid_gap (post : list float) b : forall m i,
  first_valid i (repeat None m ++ Some b :: post) = Some ((i + m)%nat, b).
Proof.
  induction m as [|m IH]; intros i; cbn [repeat app first_valid].
  - now rewrite Nat.add_0_r.
  - rewrite IH. do 2 f_equal. lia.
Qed.

Lemma Qpos_index_sub n m :
  (n <= m)%nat -> (Qpos_index m - Qpos_index n == Qpos_index (m - n))%Q.
Proof.
  intros H. unfold Qpos_index, Qminus.
  rewrite <- inject_Z_opp, <- inject_Z_plus.
  replace (Z.of_nat m + - Z.of_nat n) with (Z.of_nat (m - n)) by lia.
  reflexivity.
Qed.

Lemma Qpos_index_S_neq0 k : ~ (Qpos_index (S k) == 0)%Q.
Proof.
  unfold Qpos_index. change 0%Q with (inject_Z 0).
  rewrite inject_Z_injective. lia.
Qed.

(** X11: a run of [k] missing values between two valid ones, [a] before and
    [b] after, is filled along the straight line between them: the value
    number [j + 1] of the run is [a + (b - a) * (j + 1) / (k + 1)]. *)
Theorem interpolate_col_linear
  (pre post : list float) (a b : Q) (k j : nat) (Hj : (j < k)%nat) :
  exists q,
    nth_error (interpolate_col (pre ++ Some a :: repeat None k ++ Some b :: post))
              (List.length pre + S j)
    = Some (Some q)
    /\ (q == a + (b - a) * Qpos_index (S j) / Qpos_index (S k))%Q.
Proof.
  rewrite interpolate_col_nth, nth_error_gap by exact Hj.
  cbn [option_map fill]. unfold np_interp.
  rewrite firstn_gap by lia. rewrite last_valid_gap.
  replace (S (List.length pre + S j)) with (List.length pre + S (S j))%nat by lia.
  rewrite skipn_gap by lia. rewrite first_valid_gap.
  eexists. split; [reflexivity|].
  rewrite Qred_correct.
  rewrite (Qpos_index_sub (0 + List.length pre)) by lia.
  rewrite (Qpos_index_sub (0 + List.length pre)) by lia.
  replace (List.length pre + S (S j) + (k - S j) - (0 + List.length pre))%nat
    with (S k) by lia.
  replace (List.length pre + S j - (0 + List.length pre))%nat with (S j) by lia.
  field. apply Qpos_index_S_neq0.
Qed.

Lemma interpolate_col_linear_witness :
  (1 < 3)%nat
  /\ exists q,
       nth_error (interpolate_col ([Some 7%Q] ++ Some 10%Q :: repeat None 3
                                     ++ Some 50%Q :: [None]))
                 (List.length [Some 7%Q] + S 1)
       = Some (Some q)
       /\ (q == 10 + (50 - 10) * Qpos_index (S 1) / Qpos_index (S 3))%Q.
Proof.
  assert (H : (1 < 3)%nat) by lia.
  split; [exact H|].
  exact (interpolate_col_linear [Some 7%Q] [None] 10 50 3 1 H).
Defined.

(** X12: gaps at the edges are filled with the nearest valid value: a run
    of missing values at the head of a column takes the first valid value,
    a run at its tail takes the last one. *)
Theorem interpolate_col_edges
  (pre rest : list float) (a : Q) (k j : nat) (Hj : (j < k)%nat) :
  nth_error (interpolate_col (repeat None k ++ Some a :: rest)) j = Some (Some a)
  /\ nth_error (interpolate_col (pre ++ Some a :: repeat None k)) (List.length pre + S j)
     = Some (Some a).
Proof.
  split.
  - rewrite interpolate_col_nth.
    rewrite nth_error_app1 by (rewrite repeat_length; exact Hj).
    rewrite nth_error_repeat by exact Hj. cbn [option_map fill]. unfold np_interp.
    rewrite firstn_repeat_app by lia.
    rewrite (last_valid_all_none _ _ (Forall_repeat_none j)).
    rewrite skipn_repeat_app by lia. now rewrite first_valid_gap.
  - rewrite <- (app_nil_r (repeat None k)).
    rewrite interpolate_col_nth, nth_error_gap by exact Hj.
    cbn [option_map fill]. unfold np_interp.
    rewrite firstn_gap by lia. rewrite last_valid_gap.
    replace (S (List.length pre + S j)) with (List.length pre + S (S j))%nat by lia.
    rewrite skipn_gap by lia. rewrite app_nil_r.
    now rewrite (first_valid_all_none _ _ (Forall_repeat_none (k - S j))).
Qed.

Lemma interpolate_col_edges_witness :
  (0 < 2)%nat
  /\ nth_error (interpolate_col (repeat None 2 ++ Some 4%Q :: [Some 9%Q])) 0 = Some (Some 4%Q)
  /\ nth_error (interpolate_col ([Some 9%Q] ++ Some 4%Q :: repeat None 2))
               (List.length [Some 9%Q] + S 0)
     = Some (Some 4%Q).
Proof.
  assert (H : (0 < 2)%nat) by lia.
  split; [exact H|].
  exact (interpolate_col_edges [Some 9%Q] [Some 9%Q] 4 2 0 H).
Defined.

End InterpolationCoverage.

Section CleaningCoverage.
Import Analyzer.

Lemma interpolate_market_cap df :
  map market_cap (interpolate df) = interpolate_col (map market_cap df).
Proof.
  unfold interpolate, interpolate_col. rewrite enumerate_map, !map_map.
  apply map_ext. now intros [i r].
Qed.

Lemma interpolate_col_uniform (col : list float) : uniform (interpolate_col col).
Proof.
  destruct (all_none_or_valid col) as [Hnone|(k & v & Hk)].
  - right. now rewrite interpolate_col_all_none.
  - left. now apply interpolate_col_valid with k v.
Qed.

Lemma isnull_any_false df :
  isnull_any df = false ->
  forall r, In r df ->
    is_null (price r) = false /\ is_null (volume r) = false
    /\ is_null (market_cap r) = false.
Proof.
  unfold isnull_any. intros H r Hr.
  destruct (is_null (price r) || is_null (volume r) || is_null (market_cap r)) eqn:E.
  - assert (Hex : existsb (fun r => is_null (price r) || is_null (volume r)
                                      || is_null (market_cap r)) df = true)
      by (apply existsb_exists; now exists r).
    congruence.
  - apply orb_false_iff in E. destruct E as [E Em].
    apply orb_false_iff in E. tauto.
Qed.

Lemma clean_frame_complete (df c : list row) :
  clean_frame df = Return c -> isnull_any c = false.
Proof.
  intros Hret. unfold clean_frame in Hret.
  destruct (clean_data_raises df) eqn:Er; [discriminate Hret|].
  injection Hret as <-.
  destruct (isnull_any (clean_data df)) eqn:E; [exfalso|reflexivity].
  apply existsb_exists in E. destruct E as (r & Hr & Hnull).
  apply clean_data_rows in Hr. cbn zeta in Hr. destruct Hr as (Hin & _).
  unfold clean_data_raises in Er.
  destruct (isnull_any df) eqn:En.
  - cbn [andb] in Er.
    apply orb_false_iff in Er. destruct Er as [Er Em].
    apply orb_false_iff in Er. destruct Er as [Ep Ev].
    assert (Hcol : forall (f : row -> float),
              all_null (map f df) = false ->
              map f (interpolate df) = interpolate_col (map f df) ->
              is_null (f r) = false).
    { intros f Hf Emap.
      destruct (all_null_false _ Hf) as (k & v & Hk).
      pose proof (interpolate_col_valid _ k v Hk) as Hall.
      rewrite <- Emap, Forall_forall in Hall. apply Hall. now apply in_map. }
    rewrite (Hcol price Ep (interpolate_price df)) in Hnull.
    rewrite (Hcol volume Ev (interpolate_volume df)) in Hnull.
    rewrite (Hcol market_cap Em (interpolate_market_cap df)) in Hnull.
    discriminate Hnull.
  - destruct (isnull_any_false df En r Hin) as (Hp & Hv & Hm).
    rewrite Hp, Hv, Hm in Hnull. discriminate Hnull.
Qed.

(** The frames the cleaning stage returns have float columns. *)
Lemma clean_frame_float_columns (df c : list row) :
  clean_frame df = Return c -> float_columns c = true.
Proof.
  intros Hret. apply clean_frame_complete in Hret.
  destruct c as [|r c]; [reflexivity|]. unfold float_columns.
  destruct (isnull_any_false _ Hret r (or_introl eq_refl)) as (Hp & Hv & _).
  rewrite (all_null_in price (r :: c) r), (all_null_in volume (r :: c) r);
    auto; now left.
Qed.

(** X10: when the cleaning stage returns, it leaves no gap behind: no
    price, volume or market cap of the cleaned frame is missing. *)
Theorem clean_frame_leaves_no_gap (df c : list row)
  (Hret : clean_frame df = Return c) :
  isnull_any c = false.
Proof.
  now apply clean_frame_complete with df.
Qed.

Lemma clean_frame_leaves_no_gap_witness :
  clean_frame Samples.dirty = Return (clean_data Samples.dirty)
  /\ isnull_any (clean_data Samples.dirty) = false.
Proof.
  assert (H : clean_frame Samples.dirty = Return (clean_data Samples.dirty))
    by reflexivity.
  split; [exact H|].
  exact (clean_frame_leaves_no_gap Samples.dirty _ H).
Defined.

(** The frame the filter sees has no gaps among values, column by column. *)
Lemma prepared_uniform df (f : row -> float) :
  (f = price \/ f = volume \/ f = market_cap) ->
  uniform (map f (if isnull_any df then interpolate df else df)).
Proof.
  intros Hf. destruct (isnull_any df) eqn:E.
  - destruct Hf as [-> | [-> | ->]].
    + rewrite interpolate_price. apply interpolate_col_uniform.
    + rewrite interpolate_volume. apply interpolate_col_uniform.
    + rewrite interpolate_market_cap. apply interpolate_col_uniform.
  - left. apply Forall_forall. intros y Hy. apply in_map_iff in Hy.
    destruct Hy as (r & <- & Hr).
    destruct (isnull_any_false df E r Hr) as (Hp & Hv & Hm).
    destruct Hf as [-> | [-> | ->]]; assumption.
Qed.

Lemma uniform_subframe (f : row -> float) (l l' : list row) :
  (forall r, In r l' -> In r l) -> uniform (map f l) -> uniform (map f l').
Proof.
  intros Hsub [H|H]; [left|right]; apply Forall_forall; intros y Hy;
    apply in_map_iff in Hy; destruct Hy as (r & <- & Hr);
    rewrite Forall_forall in H; apply H; apply in_map; now apply Hsub.
Qed.

Lemma uniform_some_not_null (col : list float) v y :
  uniform col -> In (Some v) col -> In y col -> is_null y = false.
Proof.
  intros [H|H] Hv Hy; rewrite Forall_forall in H.
  - now apply H.
  - specialize (H _ Hv). discriminate H.
Qed.

Lemma clean_data_uniform df (f : row -> float) :
  (f = price \/ f = volume \/ f = market_cap) -> uniform (map f (clean_data df)).
Proof.
  intros Hf.
  apply uniform_subframe with (l := if isnull_any df then interpolate df else df).
  - intros r Hr. apply clean_data_rows in Hr. cbn zeta in Hr. tauto.
  - now apply prepared_uniform.
Qed.

Lemma not_le0_positive (x : float) :
  is_null x = false -> le0 x = false -> gt0 x = true.
Proof.
  destruct x as [q|]; cbn; [|discriminate].
  intros _ H. unfold Qltb. now rewrite H.
Qed.

(** X13: when the input has a price somewhere and a volume somewhere,
    every cleaned row has a price and a volume and both are positive: no
    gap and no non-positive value reaches the statistics. *)
Theorem clean_data_rows_positive (df : list row)
  (Hprice : exists r, In r df /\ is_null (price r) = false)
  (Hvolume : exists r, In r df /\ is_null (volume r) = false) :
  forall r, In r (clean_data df) ->
    gt0 (price r) = true /\ gt0 (volume r) = true.
Proof.
  intros r Hr. apply clean_data_rows in Hr. cbn zeta in Hr.
  set (df1 := if isnull_any df then interpolate df else df) in *.
  destruct Hr as (Hin & _ & Hp & Hv).
  assert (Hcol : forall (f : row -> float),
            (f = price \/ f = volume) ->
            (exists r0, In r0 df /\ is_null (f r0) = false) ->
            is_null (f r) = false).
  { intros f Hf (r0 & Hr0 & Hnn).
    assert (Hkeep : exists r1, In r1 df1 /\ f r1 = f r0).
    { unfold df1. destruct (isnull_any df); [|now exists r0].
      destruct (interpolate_keeps df r0 Hr0) as (r1 & H1 & _ & Hkp & Hkv).
      exists r1. split; [exact H1|].
      destruct Hf as [-> | ->].
      - destruct (price r0) as [v|]; [|discriminate Hnn]. now apply Hkp.
      - destruct (volume r0) as [v|]; [|discriminate Hnn]. now apply Hkv. }
    destruct Hkeep as (r1 & H1 & E1).
    destruct (f r0) as [v|] eqn:Ef; [|discriminate Hnn].
    apply uniform_some_not_null with (col := map f df1) (v := v).
    - apply prepared_uniform. tauto.
    - rewrite <- E1. now apply in_map.
    - now apply in_map. }
  split; apply not_le0_positive; auto.
Qed.

Lemma clean_data_rows_positive_witness :
  (exists r, In r Samples.dirty /\ is_null (price r) = false)
  /\ (exists r, In r Samples.dirty /\ is_null (volume r) = false)
  /\ forall r, In r (clean_data Samples.dirty) ->
       gt0 (price r) = true /\ gt0 (volume r) = true.
Proof.
  assert (H1 : exists r, In r Samples.dirty /\ is_null (price r) = false).
  { exists (Samples.obs 4 (Some 40%Q) (Some 5%Q)). split; [now left|reflexivity]. }
  assert (H2 : exists r, In r Samples.dirty /\ is_null (volume r) = false).
  { exists (Samples.obs 4 (Some 40%Q) (Some 5%Q)). split; [now left|reflexivity]. }
  split; [exact H1|]. split; [exact H2|].
  exact (clean_data_rows_positive Samples.dirty H1 H2).
Defined.

(** A frame whose value columns have no gaps is left alone by the
    interpolation. *)
Lemma interpolate_uniform_frame df :
  uniform (map price df) -> uniform (map volume df) -> uniform (map market_cap df) ->
  interpolate df = df.
Proof.
  intros Hp Hv Hm. unfold interpolate. apply enumerate_map_id.
  intros n r Hn. cbn [Nat.add].
  assert (Hfill : forall (f : row -> option Q), uniform (map f df) ->
            fill (map f df) n (f r) = f r).
  { intros f Hu. destruct (f r) as [v|] eqn:Ef; cbn [fill]; [reflexivity|].
    destruct Hu as [H|H].
    - rewrite Forall_forall in H. specialize (H (f r)).
      rewrite Ef in H. discriminate H. apply in_map_iff. exists r.
      split; [exact Ef|]. now apply nth_error_In with n.
    - now apply np_interp_all_none. }
  rewrite (Hfill price Hp), (Hfill volume Hv), (Hfill market_cap Hm).
  now destruct r.
Qed.

Lemma clean_data_no_anomaly df : has_anomaly (clean_data df) = false.
Proof.
  unfold has_anomaly. apply orb_false_iff. split.
  - destruct (existsb (fun r => le0 (price r)) (clean_data df)) eqn:E; [|reflexivity].
    apply existsb_exists in E. destruct E as (r & Hr & Hle).
    apply clean_data_rows in Hr. cbn zeta in Hr. destruct Hr as (_ & _ & Hp & _).
    congruence.
  - destruct (existsb (fun r => le0 (volume r)) (clean_data df)) eqn:E; [|reflexivity].
    apply existsb_exists in E. destruct E as (r & Hr & Hle).
    apply clean_data_rows in Hr. cbn zeta in Hr. destruct Hr as (_ & _ & _ & Hv).
    congruence.
Qed.

(** X14: cleaning is idempotent: a cleaned frame is cleaned to itself. *)
Theorem clean_data_idempotent (df : list row) :
  clean_data (clean_data df) = clean_data df.
Proof.
  set (c := clean_data df).
  assert (Hprep : (if isnull_any c then interpolate c else c) = c).
  { destruct (isnull_any c); [|reflexivity].
    apply interpolate_uniform_frame; apply clean_data_uniform; tauto. }
  unfold clean_data at 1. fold c. rewrite Hprep.
  unfold c at 1. rewrite clean_data_no_anomaly.
  apply sort_values_of_sorted. unfold c, clean_data. apply sort_values_sorted.
Qed.

Lemma sorted_nodup_strict (l : list Z) :
  Sorted Z.le l -> NoDup l -> StronglySorted Z.lt l.
Proof.
  intros Hs Hnd. apply Sorted_StronglySorted in Hs; [|exact Z.le_trans].
  induction Hs as [|a l Hs IH Hall]; [constructor|].
  inversion Hnd as [|? ? Hnin Hnd']; subst.
  constructor; [now apply IH|].
  rewrite Forall_forall in *. intros x Hx. specialize (Hall x Hx).
  assert (a <> x) by (intros ->; contradiction). lia.
Qed.

(** X15: with one observation per date in the input, the cleaned frame
    has its dates in strictly ascending order, so one row per date, and
    never more rows than the input. *)
Theorem clean_data_strictly_ascending (df : list row)
  (Hkey : NoDup (map date df)) :
  StronglySorted Z.lt (map date (clean_data df))
  /\ (List.length (clean_data df) <= List.length df)%nat.
Proof.
  set (df1 := if isnull_any df then interpolate df else df).
  assert (Hdates : map date df1 = map date df).
  { unfold df1. destruct (isnull_any df); [apply interpolate_date|reflexivity]. }
  set (df2 := if has_anomaly df1 then keep_positive df1 else df1).
  assert (Hnd2 : NoDup (map date df2)).
  { unfold df2. destruct (has_anomaly df1).
    - apply NoDup_map_filter. now rewrite Hdates.
    - now rewrite Hdates. }
  assert (Hlen2 : (List.length df2 <= List.length df)%nat).
  { rewrite <- (length_map date df), <- Hdates, length_map.
    unfold df2. destruct (has_anomaly df1); [apply filter_length_le|lia]. }
  change (clean_data df) with (sort_values df2).
  split.
  - apply sorted_nodup_strict; [apply sort_values_sorted|].
    eapply Permutation_NoDup; [|exact Hnd2].
    apply Permutation_map, sort_values_perm.
  - rewrite <- (Permutation_length (sort_values_perm df2)). exact Hlen2.
Qed.

Lemma clean_data_strictly_ascending_witness :
  NoDup (map date Samples.dirty)
  /\ StronglySorted Z.lt (map date (clean_data Samples.dirty))
  /\ (List.length (clean_data Samples.dirty) <= List.length Samples.dirty)%nat.
Proof.
  assert (H : NoDup (map date Samples.dirty)).
  { simpl. repeat constructor; simpl; intuition lia. }
  split; [exact H|].
  exact (clean_data_strictly_ascending Samples.dirty H).
Defined.

End CleaningCoverage.

Section StatisticsCoverage.
Import Analyzer.

Variable sqrt : Q -> Q.

(** X16: on frames whose price and volume columns are float columns, as
    the cleaning stage returns them, the statistics stage returns an
    analysis exactly when both frames have at least one row; an empty
    frame is its only failure there. *)
Theorem analyze_data_returns_iff (db : database) (btc_df eth_df : list row)
  (Hbtc : float_columns btc_df = true)
  (Heth : float_columns eth_df = true) :
  (exists a, analyze_data sqrt db btc_df eth_df = Return a)
  <-> btc_df <> [] /\ eth_df <> [].
Proof.
  unfold analyze_data. split.
  - intros [a Ha]. split; intros ->.
    + rewrite summarize_empty in Ha. discriminate Ha.
    + destruct (summarize sqrt btc_df); cbn [bind] in Ha; [|discriminate Ha].
      rewrite summarize_empty in Ha. discriminate Ha.
  - intros [Hb He].
    destruct (summarize_nonempty sqrt btc_df Hb) as [sb ->].
    destruct (summarize_nonempty sqrt eth_df He) as [se ->].
    cbn [bind]. eauto.
Qed.

Lemma summarize_volatility df s :
  summarize sqrt df = Return s ->
  volatility s = fmul (fdiv (std sqrt (map price df)) (mean (map price df))) (Some 100%Q).
Proof.
  unfold summarize.
  destruct (iloc (map price df) (-1)); cbn [bind]; [|discriminate].
  destruct (iloc (map price df) 0); cbn [bind]; [|discriminate].
  now intros [= <-].
Qed.

Lemma std_few_values col :
  (List.length (valid col) < 2)%nat -> std sqrt col = None.
Proof.
  intros H. unfold std. destruct (mean col); [|reflexivity].
  destruct (Nat.ltb_spec (List.length (valid col)) 2); [reflexivity|lia].
Qed.

(** X17: an analysis is returned even for a frame with fewer than two valid
    prices, a single day of data say, and its volatility is then NaN: the
    sample standard deviation of fewer than two values. *)
Theorem analyze_data_volatility_nan
  (db : database) (btc_df eth_df : list row) (a : analysis)
  (Hret : analyze_data sqrt db btc_df eth_df = Return a) :
  ((List.length (valid (map price btc_df)) < 2)%nat -> volatility (Bitcoin a) = None)
  /\ ((List.length (valid (map price eth_df)) < 2)%nat -> volatility (Ethereum a) = None).
Proof.
  unfold analyze_data in Hret.
  destruct (summarize sqrt btc_df) as [sb|] eqn:Eb; cbn [bind] in Hret; [|discriminate].
  destruct (summarize sqrt eth_df) as [se|] eqn:Ee; cbn [bind] in Hret; [|discriminate].
  injection Hret as <-. cbn [Bitcoin Ethereum].
  split; intros Hfew.
  - rewrite (summarize_volatility _ _ Eb), (std_few_values _ Hfew). reflexivity.
  - rewrite (summarize_volatility _ _ Ee), (std_few_values _ Hfew). reflexivity.
Qed.

Lemma clean_data_keeps_usable df :
  (exists r, In r df /\ gt0 (price r) = true /\ gt0 (volume r) = true) ->
  clean_data df <> [].
Proof.
  intros (r & Hr & Hp & Hv).
  destruct (clean_data_keeps_positive df r Hr Hp Hv) as (r1 & H1 & _).
  intros E. rewrite E in H1. contradiction.
Qed.

Lemma clean_frame_returns df :
  (exists r, In r df /\ gt0 (price r) = true /\ gt0 (volume r) = true) ->
  (exists r, In r df /\ is_null (market_cap r) = false) ->
  clean_frame df = Return (clean_data df).
Proof.
  intros (r & Hr & Hp & Hv) (r' & Hr' & Hm).
  unfold clean_frame, clean_data_raises.
  rewrite (all_null_in price df r Hr), (all_null_in volume df r Hr),
    (all_null_in market_cap df r' Hr' Hm).
  - now rewrite andb_false_r.
  - now destruct (volume r).
  - now destruct (price r).
Qed.

(** X18: the analysis run goes through whenever each table holds at
    least one row with a positive price and a positive volume and at least
    one row with a market cap, whatever else it holds. *)
Theorem main_returns_on_usable_data (db : database)
  (Hbtc : exists r, In r (bitcoin db) /\ gt0 (price r) = true /\ gt0 (volume r) = true)
  (Heth : exists r, In r (ethereum db) /\ gt0 (price r) = true /\ gt0 (volume r) = true)
  (Hbcap : exists r, In r (bitcoin db) /\ is_null (market_cap r) = false)
  (Hecap : exists r, In r (ethereum db) /\ is_null (market_cap r) = false) :
  exists a, Analyzer.main sqrt db = Return a.
Proof.
  unfold Analyzer.main, load_data.
  rewrite (clean_frame_returns _ Hbtc Hbcap), (clean_frame_returns _ Heth Hecap).
  cbn [bind]. unfold analyze_data.
  destruct (summarize_nonempty sqrt _ (clean_data_keeps_usable _ Hbtc)) as [sb ->].
  destruct (summarize_nonempty sqrt _ (clean_data_keeps_usable _ Heth)) as [se ->].
  cbn [bind]. eauto.
Qed.

End StatisticsCoverage.

Section StatisticsCoverageWitnesses.
Import Analyzer.

Lemma analyze_data_volatility_nan_witness :
  analyze_data Samples.sqrt_6dp Samples.mixed_db Samples.single_day
    (clean_data (ethereum Samples.mixed_db))
  = Return Samples.single_day_analysis
  /\ ((List.length (valid (map price Samples.single_day)) < 2)%nat ->
      volatility (Bitcoin Samples.single_day_analysis) = None)
  /\ ((List.length (valid (map price (clean_data (ethereum Samples.mixed_db)))) < 2)%nat ->
      volatility (Ethereum Samples.single_day_analysis) = None).
Proof.
  assert (H : analyze_data Samples.sqrt_6dp Samples.mixed_db Samples.single_day
                (clean_data (ethereum Samples.mixed_db))
              = Return Samples.single_day_analysis) by reflexivity.
  split; [exact H|].
  exact (analyze_data_volatility_nan Samples.sqrt_6dp Samples.mixed_db _ _ _ H).
Defined.

Lemma analyze_data_returns_iff_witness :
  float_columns (clean_data (bitcoin Samples.mixed_db)) = true
  /\ float_columns (clean_data (ethereum Samples.worthless_db)) = true
  /\ ((exists a, analyze_data Samples.sqrt_6dp Samples.mixed_db
                   (clean_data (bitcoin Samples.mixed_db))
                   (clean_data (ethereum Samples.worthless_db)) = Return a)
      <-> clean_data (bitcoin Samples.mixed_db) <> []
          /\ clean_data (ethereum Samples.worthless_db) <> []).
Proof.
  assert (H1 : float_columns (clean_data (bitcoin Samples.mixed_db)) = true)
    by reflexivity.
  assert (H2 : float_columns (clean_data (ethereum Samples.worthless_db)) = true)
    by reflexivity.
  split; [exact H1|]. split; [exact H2|].
  exact (analyze_data_returns_iff Samples.sqrt_6dp Samples.mixed_db _ _ H1 H2).
Defined.

Lemma main_returns_on_usable_data_witness :
  (exists r, In r (bitcoin Samples.mixed_db)
             /\ gt0 (price r) = true /\ gt0 (volume r) = true)
  /\ (exists r, In r (ethereum Samples.mixed_db)
                /\ gt0 (price r) = true /\ gt0 (volume r) = true)
  /\ (exists r, In r (bitcoin Samples.mixed_db) /\ is_null (market_cap r) = false)
  /\ (exists r, In r (ethereum Samples.mixed_db) /\ is_null (market_cap r) = false)
  /\ exists a, Analyzer.main Samples.sqrt_6dp Samples.mixed_db = Return a.
Proof.
  assert (H1 : exists r, In r (bitcoin Samples.mixed_db)
                         /\ gt0 (price r) = true /\ gt0 (volume r) = true).
  { exists (Samples.obs 0 (Some 10%Q) (Some 4%Q)). split; [now left|now split]. }
  assert (H2 : exists r, In r (ethereum Samples.mixed_db)
                         /\ gt0 (price r) = true /\ gt0 (volume r) = true).
  { exists (Samples.obs 0 (Some 3%Q) (Some 5%Q)). split; [now left|now split]. }
  assert (H3 : exists r, In r (bitcoin Samples.mixed_db)
                         /\ is_null (market_cap r) = false).
  { exists (Samples.obs 0 (Some 10%Q) (Some 4%Q)). split; [now left|reflexivity]. }
  assert (H4 : exists r, In r (ethereum Samples.mixed_db)
                         /\ is_null (market_cap r) = false).
  { exists (Samples.obs 0 (Some 3%Q) (Some 5%Q)). split; [now left|reflexivity]. }
  split; [exact H1|]. split; [exact H2|]. split; [exact H3|]. split; [exact H4|].
  exact (main_returns_on_usable_data Samples.sqrt_6dp Samples.mixed_db H1 H2 H3 H4).
Defined.

End StatisticsCoverageWitnesses.

Section WeekdayCoverage.
Import Analyzer.

Lemma filter_nil_iff {A} (f : A -> bool) (l : list A) :
  filter f l = [] <-> existsb f l = false.
Proof.
  induction l as [|x l IH]; cbn; [tauto|].
  destruct (f x); cbn; [split; discriminate|exact IH].
Qed.

Lemma flat_map_nums (F : Z -> list weekday_row) (test : Z -> bool) (l : list Z) :
  (forall n, map weekday_num (F n) = if test n then [n] else []) ->
  map weekday_num (flat_map F l) = filter test l.
Proof.
  intros HF. induction l as [|n l IH]; [reflexivity|].
  change (flat_map F (n :: l)) with (F n ++ flat_map F l).
  rewrite map_app, IH, HF. cbn [filter]. now destruct (test n).
Qed.

Lemma weekday_agg_nums (t : table) :
  map weekday_num (weekday_agg t) = filter (on_weekday t) [0; 1; 2; 3; 4; 5; 6].
Proof.
  unfold weekday_agg. apply flat_map_nums. intros n. unfold on_weekday.
  destruct (weekday_group t n) as [|r g] eqn:E.
  - apply filter_nil_iff in E. now rewrite E.
  - destruct (existsb (fun r => strftime_w (date r) =? n) t) eqn:Ex; [reflexivity|].
    apply filter_nil_iff in Ex. unfold weekday_group in E. congruence.
Qed.

Lemma StronglySorted_filter {A} (R : A -> A -> Prop) (f : A -> bool) (l : list A) :
  StronglySorted R l -> StronglySorted R (filter f l).
Proof.
  induction 1 as [|a l Hs IH Hall]; cbn; [constructor|].
  destruct (f a); [|exact IH]. constructor; [exact IH|].
  rewrite Forall_forall in *. intros x Hx. apply Hall.
  apply filter_In in Hx. tauto.
Qed.


End WeekdayCoverage.

Section ReportCoverage.
Import Analyzer.

Section Reduce.

Variable better : Q -> Q -> bool.
Variable pick : Q -> Q -> Q.
Hypothesis pick_better : forall m v, pick m v = if better v m then v else m.

Lemma arg_scan_fold (col : list float) : forall bi bv i,
  snd (arg_scan better (bi, bv) i col) = fold_left pick (valid col) bv.
Proof.
  induction col as [|[v|] col IH]; intros bi bv i; cbn [arg_scan snd]; [reflexivity| |].
  - change (valid (Some v :: col)) with (v :: valid col). cbn [fold_left].
    rewrite pick_better. destruct (better v bv); apply IH.
  - apply IH.
Qed.

Lemma arg_scan_nth (col : list float) : forall bi bv i k v,
  arg_scan better (bi, bv) i col = (k, v) ->
  (k, v) = (bi, bv) \/ exists j, k = (i + j)%nat /\ nth_error col j = Some (Some v).
Proof.
  induction col as [|[x|] col IH]; intros bi bv i k v H; cbn [arg_scan snd] in H.
  - left. now symmetry.
  - destruct (better x bv).
    + right. destruct (IH _ _ _ _ _ H) as [E|(j & -> & Hj)].
      * injection E as -> ->. exists 0%nat. split; [lia|reflexivity].
      * exists (S j). split; [lia|exact Hj].
    + destruct (IH _ _ _ _ _ H) as [E|(j & -> & Hj)]; [now left|right].
      exists (S j). split; [lia|exact Hj].
  - destruct (IH _ _ _ _ _ H) as [E|(j & -> & Hj)]; [now left|right].
    exists (S j). split; [lia|exact Hj].
Qed.

Lemma first_valid_head (col : list float) : forall i k v,
  first_valid i col = Some (k, v) -> exists vs, valid col = v :: vs.
Proof.
  induction col as [|[x|] col IH]; intros i k v H; cbn [first_valid] in H.
  - discriminate H.
  - injection H as _ <-. now exists (valid col).
  - exact (IH _ _ _ H).
Qed.

(** The position [arg_best] finds holds the value the reduction returns. *)
Lemma arg_best_value (col : list float) i :
  arg_best better col = Some i ->
  exists v, nth_error col i = Some (Some v) /\ series_reduce pick col = Some v.
Proof.
  unfold arg_best, series_reduce.
  destruct (first_valid 0 col) as [[i0 v0]|] eqn:E; [|discriminate].
  intros [= <-].
  destruct (first_valid_head col _ _ _ E) as [vs Hvs].
  destruct (first_valid_spec col _ _ _ E) as (j0 & -> & Hj0 & _).
  pose proof (arg_scan_fold col (0 + j0)%nat v0 0%nat) as Hfold.
  destruct (arg_scan better ((0 + j0)%nat, v0) 0 col) as [k v] eqn:Es.
  cbn [fst snd] in *. exists v. split.
  - destruct (arg_scan_nth col _ _ _ _ _ Es) as [Ekv|(j & -> & Hj)]; [|exact Hj].
    injection Ekv as -> ->. exact Hj0.
  - rewrite Hvs in *. cbn [fold_left] in Hfold. rewrite pick_better in Hfold.
    rewrite Hfold. now destruct (better v0 v0).
Qed.

Lemma arg_best_some_iff (col : list float) :
  (exists i, arg_best better col = Some i)
  <-> exists j w, nth_error col j = Some (Some w).
Proof.
  split.
  - intros [i Hi]. destruct (arg_best_value col i Hi) as (v & Hv & _). eauto.
  - intros (j & w & Hj). now apply arg_best_exists with j w.
Qed.

End Reduce.

Lemma idxmax_value col i :
  idxmax col = Some i ->
  exists v, nth_error col i = Some (Some v) /\ series_max col = Some v.
Proof.
  apply (arg_best_value (fun v b => Qltb b v) (fun m v => if Qltb m v then v else m)).
  reflexivity.
Qed.

Lemma idxmin_value col i :
  idxmin col = Some i ->
  exists v, nth_error col i = Some (Some v) /\ series_min col = Some v.
Proof.
  apply (arg_best_value (fun v b => Qltb v b) (fun m v => if Qltb v m then v else m)).
  reflexivity.
Qed.

Lemma in_column (trends : list weekday_row) g :
  In g trends -> exists j, nth_error (map wd_avg_volume trends) j = Some (wd_avg_volume g).
Proof.
  intros Hg. apply In_nth_error in Hg. destruct Hg as [j Hj]. exists j.
  now rewrite nth_error_map, Hj.
Qed.

(** X20: in the report the figure printed for the highest-volume weekday is
    the average volume of the weekday named there, likewise for the
    lowest; the recommendation names the highest-volume weekday again;
    and every weekday's average volume lies between the two figures. *)
Theorem report_figures_belong_to_days (a : analysis) (args : weekday_args)
  (Hargs : generate_report_args a = Some args) :
  exists hi lo,
    In hi (btc_weekday_trends a) /\ In lo (btc_weekday_trends a)
    /\ weekday hi = highest_day args /\ wd_avg_volume hi = highest_volume args
    /\ weekday lo = lowest_day args /\ wd_avg_volume lo = lowest_volume args
    /\ recommended_day args = highest_day args
    /\ forall g v, In g (btc_weekday_trends a) -> wd_avg_volume g = Some v ->
         exists l h, lowest_volume args = Some l /\ highest_volume args = Some h
                     /\ (l <= v <= h)%Q.
Proof.
  unfold generate_report_args in Hargs.
  set (trends := btc_weekday_trends a) in *.
  destruct (highest_volume_weekday trends) as [hl|] eqn:Eh; [|discriminate].
  destruct (lowest_volume_weekday trends) as [ll|] eqn:El; [|discriminate].
  injection Hargs as <-. cbn [highest_day highest_volume lowest_day lowest_volume
                                recommended_day].
  unfold highest_volume_weekday in Eh. unfold lowest_volume_weekday in El.
  destruct (idxmax (map wd_avg_volume trends)) as [i|] eqn:Ei; [|discriminate].
  destruct (idxmin (map wd_avg_volume trends)) as [k|] eqn:Ek; [|discriminate].
  destruct (idxmax_value _ _ Ei) as (h & Hh & Hmax).
  destruct (idxmin_value _ _ Ek) as (l & Hl & Hmin).
  destruct (lookup_row trends i h Hh) as (hi & Hhi & Vhi).
  destruct (lookup_row trends k l Hl) as (lo & Hlo & Vlo).
  rewrite Hhi in Eh. rewrite Hlo in El. cbn [option_map] in Eh, El.
  injection Eh as <-. injection El as <-.
  exists hi, lo. rewrite Hmax, Hmin.
  split; [now apply nth_error_In with i|]. split; [now apply nth_error_In with k|].
  repeat (split; [easy|]).
  intros g v Hg Hv. exists l, h. split; [reflexivity|]. split; [reflexivity|].
  destruct (in_column trends g Hg) as [j Hj]. rewrite Hv in Hj.
  destruct (idxmax_first_max _ _ Ei) as (h' & Hh' & Hall & _).
  destruct (idxmin_first_min _ _ Ek) as (l' & Hl' & Hall' & _).
  assert (h' = h) by congruence. assert (l' = l) by congruence. subst h' l'.
  split; [now apply (Hall' j)|now apply (Hall j)].
Qed.

Lemma report_figures_belong_to_days_witness :
  generate_report_args Samples.week_analysis
  = Some (mkWeekdayArgs "Sunday" (Some 9%Q) "Thursday" (Some 2%Q) "Sunday")
  /\ exists hi lo,
       In hi (btc_weekday_trends Samples.week_analysis)
       /\ In lo (btc_weekday_trends Samples.week_analysis)
       /\ weekday hi = "Sunday"%string /\ wd_avg_volume hi = Some 9%Q
       /\ weekday lo = "Thursday"%string /\ wd_avg_volume lo = Some 2%Q
       /\ "Sunday"%string = "Sunday"%string
       /\ forall g v, In g (btc_weekday_trends Samples.week_analysis) ->
            wd_avg_volume g = Some v ->
            exists l h, Some 2%Q = Some l /\ Some 9%Q = Some h /\ (l <= v <= h)%Q.
Proof.
  assert (H : generate_report_args Samples.week_analysis
              = Some (mkWeekdayArgs "Sunday" (Some 9%Q) "Thursday" (Some 2%Q) "Sunday"))
    by reflexivity.
  split; [exact H|].
  exact (report_figures_belong_to_days Samples.week_analysis _ H).
Defined.

Lemma valid_in (col : list float) v : In v (valid col) <-> In (Some v) col.
Proof.
  induction col as [|[x|] col IH]; cbn [valid flat_map app In] in *.
  - tauto.
  - fold (valid col). rewrite IH. split; intros [H|H]; auto; left; congruence.
  - fold (valid col). rewrite IH. split; [auto|]. intros [H|H]; [discriminate|auto].
Qed.

Lemma mean_not_null_iff (col : list float) :
  is_null (mean col) = false <-> exists v, In (Some v) col.
Proof.
  unfold mean. destruct (valid col) as [|v vs] eqn:E; cbn [is_null].
  - split; [discriminate|]. intros [v Hv]. apply valid_in in Hv.
    rewrite E in Hv. contradiction.
  - split; [|reflexivity]. intros _. exists v. apply valid_in. rewrite E. now left.
Qed.

Lemma weekday_agg_member (t : table) r :
  In r t ->
  exists g, In g (weekday_agg t)
            /\ wd_avg_volume g
               = mean (map volume (weekday_group t (strftime_w (date r))))
            /\ In r (weekday_group t (strftime_w (date r))).
Proof.
  intros Hr. set (n := strftime_w (date r)).
  assert (Hgroup : In r (weekday_group t n)).
  { unfold weekday_group. apply filter_In. split; [exact Hr|]. apply Z.eqb_refl. }
  exists (mkWeekday n (weekday_label n) (mean (map price (weekday_group t n)))
                    (mean (map volume (weekday_group t n)))).
  split; [|now split].
  unfold weekday_agg. apply in_flat_map. exists n. split.
  - pose proof (strftime_w_range (date r)) as Hn. fold n in Hn. cbn. lia.
  - destruct (weekday_group t n); [contradiction|]. now left.
Qed.

Lemma lookup_some_iff (trends : list weekday_row) :
  ((exists l, highest_volume_weekday trends = Some l)
   <-> exists g, In g trends /\ is_null (wd_avg_volume g) = false)
  /\ ((exists l, lowest_volume_weekday trends = Some l)
      <-> exists g, In g trends /\ is_null (wd_avg_volume g) = false).
Proof.
  assert (Hcol : (exists j w, nth_error (map wd_avg_volume trends) j = Some (Some w))
                 <-> exists g, In g trends /\ is_null (wd_avg_volume g) = false).
  { split.
    - intros (j & w & Hj). destruct (lookup_row trends j w Hj) as (g & Hg & Hv).
      exists g. split; [now apply nth_error_In with j|now rewrite Hv].
    - intros (g & Hg & Hv). destruct (in_column trends g Hg) as [j Hj].
      destruct (wd_avg_volume g) as [w|]; [|discriminate Hv]. eauto. }
  split; rewrite <- Hcol.
  - rewrite <- (arg_best_some_iff (fun v b => Qltb b v)
                  (fun m v => if Qltb m v then v else m) (fun _ _ => eq_refl)).
    fold (idxmax (map wd_avg_volume trends)). unfold highest_volume_weekday. split.
    + intros [l Hl]. destruct (idxmax (map wd_avg_volume trends)); [eauto|discriminate].
    + intros [i Hi]. rewrite Hi. destruct (idxmax_value _ _ Hi) as (v & Hv & _).
      destruct (lookup_row trends i v Hv) as (g & -> & _). cbn. eauto.
  - rewrite <- (arg_best_some_iff (fun v b => Qltb v b)
                  (fun m v => if Qltb v m then v else m) (fun _ _ => eq_refl)).
    fold (idxmin (map wd_avg_volume trends)). unfold lowest_volume_weekday. split.
    + intros [l Hl]. destruct (idxmin (map wd_avg_volume trends)); [eauto|discriminate].
    + intros [i Hi]. rewrite Hi. destruct (idxmin_value _ _ Hi) as (v & Hv & _).
      destruct (lookup_row trends i v Hv) as (g & -> & _). cbn. eauto.
Qed.

Lemma weekday_agg_volume_iff (t : table) :
  (exists g, In g (weekday_agg t) /\ is_null (wd_avg_volume g) = false)
  <-> exists r, In r t /\ is_null (volume r) = false.
Proof.
  split.
  - intros (g & Hg & Hv). destruct (weekday_agg_in t g Hg) as (_ & _ & E).
    rewrite E in Hv. apply mean_not_null_iff in Hv. destruct Hv as [v Hv].
    apply in_map_iff in Hv. destruct Hv as (r & Ev & Hr).
    exists r. split; [|now rewrite Ev].
    unfold weekday_group in Hr. apply filter_In in Hr. tauto.
  - intros (r & Hr & Hv). destruct (weekday_agg_member t r Hr) as (g & Hg & E & Hin).
    exists g. split; [exact Hg|]. rewrite E. apply mean_not_null_iff.
    destruct (volume r) as [v|] eqn:Ev; [|discriminate Hv].
    exists v. rewrite <- Ev. now apply in_map.
Qed.

Section Lookup.

Variable sqrt : Q -> Q.

(** X21: for a returned analysis, the weekday lookups of the report
    succeed exactly when some stored bitcoin row has a volume; on a table
    whose volumes are all NULL every weekday average is NaN and the lookup
    raises. *)
Theorem report_lookup_succeeds_iff
  (db : database) (btc_df eth_df : list row) (a : analysis)
  (Hret : analyze_data sqrt db btc_df eth_df = Return a) :
  (exists args, generate_report_args a = Some args)
  <-> exists r, In r (bitcoin db) /\ is_null (volume r) = false.
Proof.
  assert (Htr : btc_weekday_trends a = weekday_agg (bitcoin db)).
  { unfold analyze_data in Hret.
    destruct (summarize sqrt btc_df); cbn [bind] in Hret; [|discriminate].
    destruct (summarize sqrt eth_df); cbn [bind] in Hret; [|discriminate].
    now injection Hret as <-. }
  rewrite <- weekday_agg_volume_iff, <- Htr.
  destruct (lookup_some_iff (btc_weekday_trends a)) as [Hhi Hlo].
  unfold generate_report_args. split.
  - intros [args Hargs]. apply Hhi.
    destruct (highest_volume_weekday (btc_weekday_trends a)); [eauto|discriminate].
  - intros Hex. destruct (proj2 Hhi Hex) as [hl ->]. destruct (proj2 Hlo Hex) as [ll ->].
    eauto.
Qed.

End Lookup.

Lemma report_lookup_succeeds_iff_witness :
  analyze_data Samples.sqrt_6dp Samples.mixed_db
    (clean_data (bitcoin Samples.mixed_db)) (clean_data (ethereum Samples.mixed_db))
  = Return Samples.mixed_analysis
  /\ ((exists args, generate_report_args Samples.mixed_analysis = Some args)
      <-> exists r, In r (bitcoin Samples.mixed_db) /\ is_null (volume r) = false).
Proof.
  assert (H : analyze_data Samples.sqrt_6dp Samples.mixed_db
                (clean_data (bitcoin Samples.mixed_db))
                (clean_data (ethereum Samples.mixed_db))
              = Return Samples.mixed_analysis) by reflexivity.
  split; [exact H|].
  exact (report_lookup_succeeds_iff Samples.sqrt_6dp Samples.mixed_db _ _ _ H).
Defined.


End ReportCoverage.

Section JoinCoverage.
Import Analyzer.

Lemma filter_date_unique (right : list row) d :
  NoDup (map date right) ->
  (filter (fun y => date y =? d) right = [] /\ Collector.mem_date d right = false)
  \/ exists y, filter (fun y => date y =? d) right = [y]
               /\ Collector.mem_date d right = true.
Proof.
  unfold Collector.mem_date.
  induction right as [|y0 right IH]; cbn [map filter existsb]; intros Hnd.
  - now left.
  - inversion Hnd as [|? ? Hnin Hnd']; subst.
    destruct (Z.eqb_spec (date y0) d) as [E|Hne]; cbn [orb].
    + right. exists y0. split; [|reflexivity]. f_equal.
      apply filter_none. intros x Hx.
      apply Z.eqb_neq. intros Ex. apply Hnin. rewrite E, <- Ex. now apply in_map.
    + now apply IH.
Qed.

(** X23: the frame the correlation is computed on is the inner join of the
    two cleaned frames on the date: it pairs the prices of the rows of
    equal date and nothing else, and, the right frame having one row per
    date, it has one row for each left date that the right frame has too,
    in the order of the left frame. *)
Theorem merge_on_date_inner_join (left right : list row)
  (Hkey : NoDup (map date right)) :
  (forall d p q,
     In (d, p, q) (merge_on_date left right)
     <-> exists x y, In x left /\ In y right
                     /\ date x = d /\ date y = d /\ price x = p /\ price y = q)
  /\ map (fun m => fst (fst m)) (merge_on_date left right)
     = filter (fun d => Collector.mem_date d right) (map date left).
Proof.
  split.
  - intros d p q. unfold merge_on_date. rewrite in_flat_map. split.
    + intros (x & Hx & Hin). apply in_map_iff in Hin. destruct Hin as (y & E & Hy).
      apply filter_In in Hy. destruct Hy as [Hy Hd]. apply Z.eqb_eq in Hd.
      injection E as <- <- <-. exists x, y. repeat split; auto.
    + intros (x & y & Hx & Hy & <- & Hd & <- & <-). exists x. split; [exact Hx|].
      apply in_map_iff. exists y. split; [reflexivity|].
      apply filter_In. split; [exact Hy|]. now apply Z.eqb_eq.
  - unfold merge_on_date. induction left as [|x left IH]; [reflexivity|].
    cbn [flat_map]. rewrite map_app, map_map. cbn [fst].
    change (map date (x :: left)) with (date x :: map date left). cbn [filter].
    transitivity ((if Collector.mem_date (date x) right then [date x] else [])
                  ++ filter (fun d => Collector.mem_date d right) (map date left)).
    + f_equal; [|exact IH].
      destruct (filter_date_unique right (date x) Hkey) as [[-> ->]|(y & -> & ->)];
        reflexivity.
    + now destruct (Collector.mem_date (date x) right).
Qed.

Lemma merge_on_date_inner_join_witness :
  NoDup (map date Samples.complete_b)
  /\ (forall d p q,
        In (d, p, q) (merge_on_date Samples.gap_in_order Samples.complete_b)
        <-> exists x y, In x Samples.gap_in_order /\ In y Samples.complete_b
                        /\ date x = d /\ date y = d /\ price x = p /\ price y = q)
  /\ map (fun m => fst (fst m)) (merge_on_date Samples.gap_in_order Samples.complete_b)
     = filter (fun d => Collector.mem_date d Samples.complete_b)
              (map date Samples.gap_in_order).
Proof.
  assert (H : NoDup (map date Samples.complete_b)).
  { simpl. repeat constructor; simpl; intuition lia. }
  split; [exact H|].
  exact (merge_on_date_inner_join Samples.gap_in_order Samples.complete_b H).
Defined.

End JoinCoverage.

Section PriceChangeCoverage.
Import Analyzer.

Variable sqrt : Q -> Q.

Lemma nth_error_last {A} (l : list A) (d : A) :
  l <> [] -> nth_error l (List.length l - 1) = Some (last l d).
Proof.
  induction l as [|x l IH]; intros Hne; [contradiction|].
  destruct l as [|y l]; [reflexivity|].
  cbn [List.length Nat.sub] in *. rewrite Nat.sub_0_r in *.
  change (nth_error (x :: y :: l) (S (List.length l)))
    with (nth_error (y :: l) (List.length l)).
  rewrite IH by discriminate. reflexivity.
Qed.

Lemma iloc_first (col : list float) y :
  iloc (y :: col) 0 = Return y.
Proof.
  unfold iloc. cbn [Z.ltb Z.compare].
  destruct (Z.leb_spec 0 0); [|lia].
  destruct (Z.ltb_spec 0 (Z.of_nat (List.length (y :: col)))); [reflexivity|].
  cbn [List.length] in *. lia.
Qed.

Lemma iloc_last (col : list float) :
  col <> [] -> iloc col (-1) = Return (last col None).
Proof.
  intros Hne. unfold iloc. cbn [Z.ltb Z.compare].
  assert (Hlen : 0 < Z.of_nat (List.length col))
    by (destruct col; [contradiction|cbn [List.length]; lia]).
  destruct (Z.leb_spec 0 (Z.of_nat (List.length col) + -1)); [|lia].
  destruct (Z.ltb_spec (Z.of_nat (List.length col) + -1) (Z.of_nat (List.length col)));
    [|lia].
  cbn [andb].
  replace (Z.to_nat (Z.of_nat (List.length col) + -1)) with (List.length col - 1)%nat
    by lia.
  now rewrite (nth_error_last col None Hne).
Qed.

Lemma last_map {A B} (f : A -> B) (l : list A) (d : A) :
  last (map f l) (f d) = f (last l d).
Proof.
  induction l as [|x l IH]; [reflexivity|].
  destruct l as [|y l]; [reflexivity|]. exact IH.
Qed.

Lemma last_in {A} (l : list A) (d : A) : l <> [] -> In (last l d) l.
Proof.
  induction l as [|x l IH]; intros Hne; [contradiction|].
  destruct l as [|y l]; [now left|]. right. apply IH. discriminate.
Qed.

Lemma sorted_last_is_latest (l : list row) (d : row) :
  StronglySorted Z.le (map date l) ->
  forall r, In r l -> date r <= date (last l d).
Proof.
  induction l as [|x l IH]; intros Hs r Hr; [contradiction|].
  cbn [map] in Hs. inversion Hs as [|? ? Hs' Hall]; subst.
  destruct l as [|y l].
  - destruct Hr as [<-|[]]. cbn. lia.
  - change (last (x :: y :: l) d) with (last (y :: l) d).
    destruct Hr as [<-|Hr]; [|now apply IH].
    rewrite Forall_forall in Hall. apply Hall. apply in_map.
    apply last_in. discriminate.
Qed.

(** X24: the price change of a cleaned frame compares its latest date with
    its earliest: it is [(last - first) / first * 100] for the prices of
    the rows of the greatest and of the least date of the frame, in
    whatever order the table was read. *)
Theorem price_change_spans_the_dates (df : list row) (s : summary)
  (Hsum : summarize sqrt (clean_data df) = Return s) :
  exists first last,
    In first (clean_data df) /\ In last (clean_data df)
    /\ (forall r, In r (clean_data df) -> date first <= date r <= date last)
    /\ price_change_pct s
       = fmul (fdiv (fsub (price last) (price first)) (price first)) (Some 100%Q).
Proof.
  assert (Hsorted : StronglySorted Z.le (map date (clean_data df))).
  { apply Sorted_StronglySorted; [exact Z.le_trans|].
    unfold clean_data. apply sort_values_sorted. }
  destruct (clean_data df) as [|x c] eqn:Ec.
  - rewrite summarize_empty in Hsum. discriminate Hsum.
  - set (dflt := mkRow 0 None None None).
    exists x, (last (x :: c) dflt).
    split; [now left|]. split; [apply last_in; discriminate|]. split.
    + intros r Hr. split.
      * cbn [map] in Hsorted. inversion Hsorted as [|? ? _ Hall]; subst.
        destruct Hr as [<-|Hr]; [lia|].
        rewrite Forall_forall in Hall. apply Hall. now apply in_map.
      * now apply sorted_last_is_latest.
    + unfold summarize in Hsum.
      rewrite iloc_last in Hsum by discriminate.
      change (map price (x :: c)) with (price x :: map price c) in Hsum.
      rewrite !iloc_first in Hsum. cbn [bind] in Hsum.
      injection Hsum as <-. cbn [price_change_pct].
      rewrite <- (last_map price (x :: c) dflt). reflexivity.
Qed.

End PriceChangeCoverage.

Section PriceChangeWitness.
Import Analyzer.

Lemma price_change_spans_the_dates_witness :
  summarize Samples.sqrt_6dp (clean_data Samples.complete_a)
  = Return (Bitcoin Samples.reordered_analysis)
  /\ exists first last,
       In first (clean_data Samples.complete_a) /\ In last (clean_data Samples.complete_a)
       /\ (forall r, In r (clean_data Samples.complete_a) ->
             date first <= date r <= date last)
       /\ price_change_pct (Bitcoin Samples.reordered_analysis)
          = fmul (fdiv (fsub (price last) (price first)) (price first)) (Some 100%Q).
Proof.
  assert (H : summarize Samples.sqrt_6dp (clean_data Samples.complete_a)
              = Return (Bitcoin Samples.reordered_analysis)) by reflexivity.
  split; [exact H|].
  exact (price_change_spans_the_dates Samples.sqrt_6dp Samples.complete_a _ H).
Defined.

End PriceChangeWitness.
